(** * Rental billing and stock reconciliation

    A shallow embedding of the calculation core of the centering-plates
    rental application: the accrual calculator of the billing page
    ([src/pages/Billing.tsx]), the return handler of the Jama page
    ([src/pages/Jama.tsx]), the issuance handler of the Udhar page and the
    ledger aggregation of the Khata Wahi page ([src/pages/KhataWahi.tsx]),
    the figures of the dashboard ([src/pages/Dashboard.tsx]) and the stock
    form ([src/pages/Stock.tsx]), over the record types of
    [src/lib/supabase.ts].

    Conventions of the model.
    - Row keys are uuid strings that the code only compares with [===];
      they are natural numbers here, handed out by a counter of the store.
    - Quantities and amounts are JavaScript numbers; they are integers here
      (amounts in the smallest currency unit), so sums and products are
      exact.  Not-a-number inputs are outside the model.
    - A date is the instant a JavaScript [Date] holds (milliseconds since
      the epoch); a [date] column holds such an instant already parsed.
    - Free-text and attachment fields (notes, inspector name, signature,
      damage description and photos) are carried verbatim by the code and
      never read; they are left out of the records. *)

From Stdlib Require Import ZArith List Bool Lia String PeanoNat.
Import ListNotations.
Local Open Scope Z_scope.

Definition Id := nat.
Definition Date := Z.
Definition Money := Z.

(** ** Record types ([src/lib/supabase.ts]) *)

Inductive RentalStatus := active | partially_returned | completed | cancelled.

Inductive Condition := good | damaged | lost.

Definition RentalStatus_eqb (a b : RentalStatus) : bool :=
  match a, b with
  | active, active | partially_returned, partially_returned
  | completed, completed | cancelled, cancelled => true
  | _, _ => false
  end.

Module Client.
Record t := mk { id : Id; name : string }.
End Client.

Module StockItem.
Record t := mk {
  id : Id;
  category_id : Id;
  total_quantity : Z;
  available_quantity : Z;
  rented_quantity : Z;
  damaged_quantity : Z;
  updated_at : Date }.
End StockItem.

Module RentalItem.
Record t := mk {
  id : Id;
  rental_id : Id;
  category_id : Id;
  quantity : Z;
  daily_rate : Money;
  returned_quantity : Z }.
End RentalItem.

Module Rental.
Record t := mk {
  id : Id;
  client_id : Id;
  rental_date : Date;
  expected_return_date : option Date;
  actual_return_date : option Date;
  status : RentalStatus;
  total_amount : Money;
  updated_at : Date;
  created_by : Id;
  (* present only when the row was selected with its nested rental_items *)
  rental_items : option (list RentalItem.t) }.
End Rental.

Module ReturnRecord.
Record t := mk {
  id : Id;
  rental_id : Id;
  return_date : Date;
  total_damage_cost : Money;
  created_by : Id }.
End ReturnRecord.

Module ReturnItem.
Record t := mk {
  id : Id;
  return_id : Id;
  rental_item_id : Id;
  returned_quantity : Z;
  condition : Condition;
  damage_cost : Money }.
End ReturnItem.

Module Payment.
Record t := mk {
  id : Id;
  client_id : Id;
  amount : Money;
  payment_date : Date }.
End Payment.

Module Invoice.
Record t := mk {
  id : Id;
  client_id : Id;
  rental_id : Id;
  issue_date : Date;
  due_date : Date;
  subtotal : Money;
  tax_rate : Z;
  created_by : Id }.
End Invoice.

(** ** The record store

    The hosted database, reached through the supabase client.  A table is
    the list of its rows in insertion order. *)

Record Store := mkStore {
  clients : list Client.t;
  stock_items : list StockItem.t;
  rentals : list Rental.t;
  rental_items : list RentalItem.t;
  returns : list ReturnRecord.t;
  return_items : list ReturnItem.t;
  payments : list Payment.t;
  invoices : list Invoice.t;
  (* source of the keys the database generates *)
  next_id : Id }.

(** A new row is a row still waiting for its generated key. *)
Fixpoint assign_ids {R : Type} (n : Id) (rows : list (Id -> R)) : list R :=
  match rows with
  | [] => []
  | row :: rows' => row n :: assign_ids (S n) rows'
  end.

(** [.update(patch).eq('id', key)] *)
Definition update_rows {R : Type} (id_of : R -> Id) (key : Id) (patch : R -> R)
  (rows : list R) : list R :=
  map (fun row => if Nat.eqb (id_of row) key then patch row else row) rows.

(** [.order(column)]: a stable insertion sort; [before a b] says that [a]
    may stand before [b]. *)
Fixpoint insert_ordered {R : Type} (before : R -> R -> bool) (x : R) (l : list R) : list R :=
  match l with
  | [] => [x]
  | y :: l' => if before x y then x :: l else y :: insert_ordered before x l'
  end.

Definition order_by {R : Type} (before : R -> R -> bool) (rows : list R) : list R :=
  fold_right (insert_ordered before) [] rows.

Definition insert_return (row : Id -> ReturnRecord.t) (s : Store) : ReturnRecord.t * Store :=
  let stored := row (next_id s) in
  (stored,
   mkStore (clients s) (stock_items s) (rentals s) (rental_items s)
     (returns s ++ [stored]) (return_items s) (payments s) (invoices s)
     (S (next_id s))).

Definition insert_return_items (rows : list (Id -> ReturnItem.t)) (s : Store) : unit * Store :=
  (tt,
   mkStore (clients s) (stock_items s) (rentals s) (rental_items s)
     (returns s) (return_items s ++ assign_ids (next_id s) rows) (payments s) (invoices s)
     (next_id s + List.length rows)%nat).

Definition insert_rental (row : Id -> Rental.t) (s : Store) : Rental.t * Store :=
  let stored := row (next_id s) in
  (stored,
   mkStore (clients s) (stock_items s) (rentals s ++ [stored]) (rental_items s)
     (returns s) (return_items s) (payments s) (invoices s)
     (S (next_id s))).

Definition insert_rental_items (rows : list (Id -> RentalItem.t)) (s : Store) : unit * Store :=
  (tt,
   mkStore (clients s) (stock_items s) (rentals s)
     (rental_items s ++ assign_ids (next_id s) rows)
     (returns s) (return_items s) (payments s) (invoices s)
     (next_id s + List.length rows)%nat).

Definition insert_invoice (row : Id -> Invoice.t) (s : Store) : Invoice.t * Store :=
  let stored := row (next_id s) in
  (stored,
   mkStore (clients s) (stock_items s) (rentals s) (rental_items s)
     (returns s) (return_items s) (payments s) (invoices s ++ [stored])
     (S (next_id s))).

Definition update_rental (key : Id) (patch : Rental.t -> Rental.t) (s : Store) : unit * Store :=
  (tt,
   mkStore (clients s) (stock_items s) (update_rows Rental.id key patch (rentals s))
     (rental_items s) (returns s) (return_items s) (payments s) (invoices s) (next_id s)).

Definition update_stock_item (key : Id) (patch : StockItem.t -> StockItem.t) (s : Store)
  : unit * Store :=
  (tt,
   mkStore (clients s) (update_rows StockItem.id key patch (stock_items s)) (rentals s)
     (rental_items s) (returns s) (return_items s) (payments s) (invoices s) (next_id s)).

(** A select reads and leaves the store as it is. *)
Definition select {A : Type} (query : Store -> A) (s : Store) : A * Store := (query s, s).

(** [rental_items ( * )] nested in a select of rentals. *)
Definition with_rental_items (s : Store) (r : Rental.t) : Rental.t :=
  Rental.mk (Rental.id r) (Rental.client_id r) (Rental.rental_date r)
    (Rental.expected_return_date r) (Rental.actual_return_date r) (Rental.status r)
    (Rental.total_amount r) (Rental.updated_at r) (Rental.created_by r)
    (Some (filter (fun item => Nat.eqb (RentalItem.rental_id item) (Rental.id r))
             (rental_items s))).

(** ** Handlers as computations over the store

    Every request to the store either is served or comes back as
    [{ error }]; which one is decided outside the program, by [served] on the
    number of the request.  A handler runs inside [try ... catch]: a thrown
    error abandons the rest of the body and keeps what was stored so far. *)

Record World := mkWorld { db : Store; sent : nat }.

Inductive Reply (A : Type) := Data (a : A) | StoreError.
Arguments Data {A} a.
Arguments StoreError {A}.

Inductive Completion (A : Type) := Normal (a : A) | Thrown.
Arguments Normal {A} a.
Arguments Thrown {A}.

Definition Async (A : Type) : Type := (nat -> bool) -> World -> Completion A * World.

Definition ret {A : Type} (a : A) : Async A := fun _ w => (Normal a, w).

Definition bind {A B : Type} (m : Async A) (k : A -> Async B) : Async B :=
  fun served w =>
    match m served w with
    | (Normal a, w') => k a served w'
    | (Thrown, w') => (Thrown, w')
    end.

Definition throw {A : Type} : Async A := fun _ w => (Thrown, w).

Definition tryCatch {A : Type} (body handler : Async A) : Async A :=
  fun served w =>
    match body served w with
    | (Normal a, w') => (Normal a, w')
    | (Thrown, w') => handler served w'
    end.

Definition request {A : Type} (op : Store -> A * Store) : Async (Reply A) :=
  fun served w =>
    if served (sent w)
    then let (a, s') := op (db w) in (Normal (Data a), mkWorld s' (S (sent w)))
    else (Normal StoreError, mkWorld (db w) (S (sent w))).

(** [if (error) throw error;] *)
Definition orThrow {A : Type} (reply : Reply A) : Async A :=
  match reply with
  | Data a => ret a
  | StoreError => throw
  end.

Declare Scope async_scope.
Delimit Scope async_scope with async.
Notation "x <- m ;; k" := (bind m (fun x => k))
  (at level 61, m at next level, right associativity) : async_scope.
Notation "m ;;; k" := (bind m (fun _ => k))
  (at level 61, right associativity) : async_scope.

(** How a handler ends: silently after a bare [return], with the success
    toast, in its [catch] block (which logs the error and asks for the
    failure toast), or with the insufficient-stock toast that names the
    available quantity. *)
Inductive Toast := Silent | Success | Failed | InsufficientStock (available : Z).

(** The value and the store a handler leaves. *)
Definition outcome {A : Type} (m : Async A) (served : nat -> bool) (s : Store)
  : Completion A * Store :=
  let (c, w) := m served (mkWorld s 0) in (c, db w).

Definition always : nat -> bool := fun _ => true.

(** The store serves every request but request number [n]. *)
Definition failing_at (n : nat) : nat -> bool := fun k => negb (Nat.eqb k n).

(** ** Rental accrual and invoicing ([src/pages/Billing.tsx]) *)

Module Billing.

Module InvoiceFormData.
Record t := mk {
  client_id : Id;
  rental_id : Id;
  issue_date : Date;
  due_date : Date;
  tax_rate : Z }.
End InvoiceFormData.

(** A row of the items table of the PDF.  Its description is the name of the
    category followed by the number of billed days; [days] is that number. *)
Module InvoiceLine.
Record t := mk { days : Z; quantity : Z; rate : Money; amount : Money }.
End InvoiceLine.

Section Accrual.

(** [differenceInDays] is imported from the date-fns package: the number of
    full days from its second argument to its first. *)
Variable differenceInDays : Date -> Date -> Z.

(** The end of the billed period: the actual return date when the rental
    has one, the evaluation instant otherwise (lines 91-95). *)
Definition returnDate (today : Date) (rental : Rental.t) : Date :=
  match Rental.actual_return_date rental with
  | Some d => d
  | None => today
  end.

(** Line 97. *)
Definition days (today : Date) (rental : Rental.t) : Z :=
  Z.max 1 (differenceInDays (returnDate today rental) (Rental.rental_date rental) + 1).

(** Lines 88-102; [today] is the value of [new Date()]. *)
Definition calculateRentalAmount (today : Date) (rental : Rental.t) : Money :=
  match Rental.rental_items rental with
  | None => 0
  | Some items =>
      fold_left
        (fun total item =>
           total + RentalItem.quantity item * RentalItem.daily_rate item * days today rental)
        items 0
  end.

(** Lines 104-149.  After the success toast the handler reloads the page data
    and renders the PDF; neither writes to the store. *)
Definition generateInvoice (user : option Id) (selectedRental : option Rental.t)
  (invoiceFormData : InvoiceFormData.t) (today : Date) : Async Toast :=
  match user, selectedRental with
  | Some user_id, Some rental =>
      tryCatch
        (let subtotal := calculateRentalAmount today rental in
         invoiceReply <- request (insert_invoice (fun id =>
           Invoice.mk id
             (InvoiceFormData.client_id invoiceFormData)
             (InvoiceFormData.rental_id invoiceFormData)
             (InvoiceFormData.issue_date invoiceFormData)
             (InvoiceFormData.due_date invoiceFormData)
             subtotal
             (InvoiceFormData.tax_rate invoiceFormData)
             user_id)) ;;
         orThrow invoiceReply ;;;
         ret Success)%async
        (ret Failed)
  | _, _ => ret Silent
  end.

(** Lines 159-172 of [generatePDF]: the rows of the items table, computed
    anew from the rental when the PDF is rendered;
    [rental.rental_items?.map(...) || []]. *)
Definition pdfItems (today : Date) (rental : Rental.t) : list InvoiceLine.t :=
  match Rental.rental_items rental with
  | None => []
  | Some items =>
      map (fun item =>
             InvoiceLine.mk (days today rental)
               (RentalItem.quantity item)
               (RentalItem.daily_rate item * days today rental)
               (RentalItem.quantity item * RentalItem.daily_rate item * days today rental))
        items
  end.

End Accrual.

(** A date-fns day count for a zone whose offset from UTC never changes:
    whole 24-hour periods, the fraction truncated towards zero. *)
Definition msPerDay : Z := 86400000.

Definition fullDays (later earlier : Date) : Z := Z.quot (later - earlier) msPerDay.


(** What the billing page holds after [fetchData]. *)
Module Page.
Record t := mk {
  invoices : list Invoice.t;
  clients : list Client.t;
  rentals : list Rental.t }.
End Page.

(** Lines 44-86.  The three selects are sent together and their errors
    inspected afterwards; the page keeps what it held when one of them
    failed.  The invoices come latest first, the clients by name, the rentals
    that are not cancelled by rental date, latest first, with their line
    items. *)
Definition fetchData (page : Page.t) : Async Page.t :=
  tryCatch
    (invoicesResult <- request (select (fun s => rev (invoices s))) ;;
     clientsResult <- request (select (fun s =>
        order_by (fun a b => String.leb (Client.name a) (Client.name b)) (clients s))) ;;
     rentalsResult <- request (select (fun s =>
        order_by (fun a b => Rental.rental_date b <=? Rental.rental_date a)
          (map (with_rental_items s)
             (filter (fun r =>
                        RentalStatus_eqb (Rental.status r) active
                        || RentalStatus_eqb (Rental.status r) partially_returned
                        || RentalStatus_eqb (Rental.status r) completed)
                (rentals s))))) ;;
     invoiceRows <- orThrow invoicesResult ;;
     clientRows <- orThrow clientsResult ;;
     rentalRows <- orThrow rentalsResult ;;
     ret (Page.mk invoiceRows clientRows rentalRows))%async
    (ret page).

(** Lines 240-242: the rentals that no invoice of the page refers to. *)
Definition filteredRentals (page : Page.t) : list Rental.t :=
  filter (fun rental =>
            negb (existsb (fun invoice => Nat.eqb (Invoice.rental_id invoice) (Rental.id rental))
                    (Page.invoices page)))
    (Page.rentals page).

(** Lines 216-226, for a rental picked from the list: the selected rental
    and the form.  [format] is date-fns [format(_, 'yyyy-MM-dd')], the day of
    an instant; the due date is thirty days after the current instant. *)
Definition openInvoiceModal (format : Date -> Date) (now : Date) (rental : Rental.t)
  : option Rental.t * InvoiceFormData.t :=
  (Some rental,
   InvoiceFormData.mk (Rental.client_id rental) (Rental.id rental)
     (format now) (format (now + 30 * 24 * 60 * 60 * 1000)) 18).

End Billing.

(** ** Return processing ([src/pages/Jama.tsx]) *)

Module Jama.

Module ReturnFormData.
Record t := mk { rental_id : Id; return_date : Date }.
End ReturnFormData.

Module ReturnItemFormData.
Record t := mk {
  rental_item_id : Id;
  returned_quantity : Z;
  condition : Condition;
  damage_cost : Money }.
End ReturnItemFormData.

(** Line 365: what is still out for a rental line item. *)
Definition pendingQuantity (rentalItem : RentalItem.t) : Z :=
  RentalItem.quantity rentalItem - RentalItem.returned_quantity rentalItem.

(** Lines 385-389: the bounds of the quantity input of the form,
    [min="0" max={pendingQuantity}]. *)
Definition quantityInRange (rentalItem : RentalItem.t) (returnItem : ReturnItemFormData.t)
  : bool :=
  (0 <=? ReturnItemFormData.returned_quantity returnItem)
  && (ReturnItemFormData.returned_quantity returnItem <=? pendingQuantity rentalItem).

(** Lines 105-107. *)
Definition calculateTotalDamageCost (returnItems : list ReturnItemFormData.t) : Money :=
  fold_left (fun total item => total + ReturnItemFormData.damage_cost item) returnItems 0.

(** Lines 132-142: the rows of return_items, one for each submission with a
    positive quantity. *)
Definition returnItemsData (return_id : Id) (returnItems : list ReturnItemFormData.t)
  : list (Id -> ReturnItem.t) :=
  map (fun item id =>
         ReturnItem.mk id return_id
           (ReturnItemFormData.rental_item_id item)
           (ReturnItemFormData.returned_quantity item)
           (ReturnItemFormData.condition item)
           (ReturnItemFormData.damage_cost item))
      (filter (fun item => 0 <? ReturnItemFormData.returned_quantity item) returnItems).

(** Lines 151-154; an absent rental_items list makes the test falsy. *)
Definition allItemsReturned (selectedRental : Rental.t)
  (returnItems : list ReturnItemFormData.t) : bool :=
  match Rental.rental_items selectedRental with
  | None => false
  | Some items =>
      forallb
        (fun rentalItem =>
           match find (fun ri => Nat.eqb (ReturnItemFormData.rental_item_id ri)
                                   (RentalItem.id rentalItem)) returnItems with
           | None => false
           | Some returnItem =>
               RentalItem.quantity rentalItem
               <=? RentalItem.returned_quantity rentalItem
                   + ReturnItemFormData.returned_quantity returnItem
           end)
        items
  end.

(** Lines 156-165: the patch of the rentals row. *)
Definition closeRental (newStatus : RentalStatus) (return_date now : Date) (r : Rental.t)
  : Rental.t :=
  Rental.mk (Rental.id r) (Rental.client_id r) (Rental.rental_date r)
    (Rental.expected_return_date r)
    (if RentalStatus_eqb newStatus completed then Some return_date else None)
    newStatus
    (Rental.total_amount r) now (Rental.created_by r) (Rental.rental_items r).

(** Lines 109-177.  The reply of the last request is awaited and not
    inspected. *)
Definition handleSubmit (user : option Id) (selectedRental : option Rental.t)
  (returnFormData : ReturnFormData.t) (returnItems : list ReturnItemFormData.t)
  (now : Date) : Async Toast :=
  match user, selectedRental with
  | Some user_id, Some rental =>
      tryCatch
        (returnReply <- request (insert_return (fun id =>
           ReturnRecord.mk id
             (ReturnFormData.rental_id returnFormData)
             (ReturnFormData.return_date returnFormData)
             (calculateTotalDamageCost returnItems)
             user_id)) ;;
         returnRecord <- orThrow returnReply ;;
         itemsReply <- request (insert_return_items
           (returnItemsData (ReturnRecord.id returnRecord) returnItems)) ;;
         orThrow itemsReply ;;;
         let newStatus :=
           if allItemsReturned rental returnItems then completed else partially_returned in
         request (update_rental (Rental.id rental)
           (closeRental newStatus (ReturnFormData.return_date returnFormData) now)) ;;;
         ret Success)%async
        (ret Failed)
  | _, _ => ret Silent
  end.


(** Lines 74-94.  [pending_quantity] reads the optional field of that name of
    a fetched line item (the rental_items table has no such column);
    [today] is the formatted current day.  On a number [x || 0] is [x]. *)
Definition selectRental (pending_quantity : RentalItem.t -> option Z) (today : Date)
  (rental : Rental.t) : ReturnFormData.t * list ReturnItemFormData.t :=
  (ReturnFormData.mk (Rental.id rental) today,
   match Rental.rental_items rental with
   | None => []
   | Some items =>
       map (fun item =>
              ReturnItemFormData.mk (RentalItem.id item)
                (Z.min (match pending_quantity item with Some p => p | None => 0 end)
                   (RentalItem.quantity item))
                good 0)
         items
   end).

(** Line 488: the submit button is disabled while a return is processed and
    while every quantity of the form is zero. *)
Definition submitDisabled (processing : bool) (returnItems : list ReturnItemFormData.t)
  : bool :=
  processing
  || forallb (fun item => ReturnItemFormData.returned_quantity item =? 0) returnItems.


(** Lines 361-365: the line item of the selected rental that a submission of
    the form is shown with; a submission without one is not shown. *)
Definition shownRentalItem (selectedRental : Rental.t) (returnItem : ReturnItemFormData.t)
  : option RentalItem.t :=
  match Rental.rental_items selectedRental with
  | None => None
  | Some items =>
      find (fun ri => Nat.eqb (RentalItem.id ri) (ReturnItemFormData.rental_item_id returnItem))
        items
  end.

(** The constraints the form puts on its fields: every quantity input that is
    shown lies between its [min] and its [max] (lines 385-389). *)
Definition formValid (selectedRental : Rental.t) (returnItems : list ReturnItemFormData.t)
  : bool :=
  forallb
    (fun returnItem =>
       match shownRentalItem selectedRental returnItem with
       | Some rentalItem => quantityInRange rentalItem returnItem
       | None => true
       end)
    returnItems.

(** What pressing the submit button of the form does: nothing while the
    button is disabled; a validation message of the browser, without a submit
    event, when a field violates its constraints (the form at line 298 does
    not switch validation off); the handler otherwise. *)
Inductive Submission :=
| Disabled
| Invalid
| Submitted (shown : Completion Toast).

(** Lines 296-298 and 486-489: the form is there only while a rental is
    selected, and [handleSubmit] is its submit handler and has no other
    caller. *)
Definition submitForm (user : option Id) (selectedRental : Rental.t) (processing : bool)
  (returnFormData : ReturnFormData.t) (returnItems : list ReturnItemFormData.t) (now : Date)
  (served : nat -> bool) (w : World) : Submission * World :=
  if submitDisabled processing returnItems then (Disabled, w)
  else if formValid selectedRental returnItems
       then let (shown, w') :=
              handleSubmit user (Some selectedRental) returnFormData returnItems now served w in
            (Submitted shown, w')
       else (Invalid, w).

End Jama.

Module StockCategory.
Record t := mk { id : Id; daily_rate : Money }.
End StockCategory.

(** ** Rental issuance (the Udhar page, second part of
    [src/pages/KhataWahi.tsx]) *)

Module Udhar.

Module RentalItemForm.
Record t := mk { category_id : Id; quantity : Z; daily_rate : Money }.
End RentalItemForm.

Module FormData.
Record t := mk {
  client_id : Id;
  rental_date : Date;
  expected_return_date : option Date }.
End FormData.

(** Lines 525-529. *)
Definition calculateTotal (rentalItems : list RentalItemForm.t) : Money :=
  fold_left
    (fun total item => total + RentalItemForm.quantity item * RentalItemForm.daily_rate item)
    rentalItems 0.

(** [stockItems.find(item => item.category_id === categoryId)] *)
Definition findStockItem (stockItems : list StockItem.t) (categoryId : Id)
  : option StockItem.t :=
  find (fun item => Nat.eqb (StockItem.category_id item) categoryId) stockItems.

(** Lines 531-534, over the stock rows the page holds. *)
Definition getAvailableQuantity (stockItems : list StockItem.t) (categoryId : Id) : Z :=
  match findStockItem stockItems categoryId with
  | Some stockItem => StockItem.available_quantity stockItem
  | None => 0
  end.

(** Lines 543-550: the availability loop; the first line item asking for
    more than is available ends the handler with that available quantity. *)
Fixpoint firstShortage (stockItems : list StockItem.t) (rentalItems : list RentalItemForm.t)
  : option Z :=
  match rentalItems with
  | [] => None
  | item :: rest =>
      let availableQty := getAvailableQuantity stockItems (RentalItemForm.category_id item) in
      if availableQty <? RentalItemForm.quantity item
      then Some availableQty
      else firstShortage stockItems rest
  end.

(** Lines 589-593: the patch of a stock_items row, computed from the row the
    page holds. *)
Definition issueFrom (stockItem : StockItem.t) (quantity : Z) (now : Date) (row : StockItem.t)
  : StockItem.t :=
  StockItem.mk (StockItem.id row) (StockItem.category_id row) (StockItem.total_quantity row)
    (StockItem.available_quantity stockItem - quantity)
    (StockItem.rented_quantity stockItem + quantity)
    (StockItem.damaged_quantity row) now.

(** Lines 584-596: the stock loop; every reply is awaited and not inspected. *)
Fixpoint updateStock (stockItems : list StockItem.t) (now : Date)
  (rentalItems : list RentalItemForm.t) : Async unit :=
  match rentalItems with
  | [] => ret tt
  | item :: rest =>
      match findStockItem stockItems (RentalItemForm.category_id item) with
      | Some stockItem =>
          (request (update_stock_item (StockItem.id stockItem)
             (issueFrom stockItem (RentalItemForm.quantity item) now)) ;;;
           updateStock stockItems now rest)%async
      | None => updateStock stockItems now rest
      end
  end.

(** Lines 570-575. *)
Definition rentalItemsData (rental_id : Id) (rentalItems : list RentalItemForm.t)
  : list (Id -> RentalItem.t) :=
  map (fun item id =>
         RentalItem.mk id rental_id
           (RentalItemForm.category_id item)
           (RentalItemForm.quantity item)
           (RentalItemForm.daily_rate item)
           0)
      rentalItems.

(** Lines 536-618.  [stockItems] is the page's copy of the stock rows.  The
    database fills the columns the insert leaves out: status [active], no
    actual return date, the time of the insert.  The form reset and the
    reload of the stock rows that follow the success toast are in
    [Session.step].  The parameter of the catch block (lines 612-615) has the
    name of the toast function, so the call meant to show the failure toast
    applies the caught error and raises a TypeError: after a refused insert
    the handler ends by throwing and shows no toast. *)
Definition handleSubmit (user : option Id) (stockItems : list StockItem.t)
  (formData : FormData.t) (rentalItems : list RentalItemForm.t) (now : Date)
  : Async Toast :=
  match user, rentalItems with
  | None, _ => ret Silent
  | Some _, [] => ret Silent
  | Some user_id, _ :: _ =>
      tryCatch
        (match firstShortage stockItems rentalItems with
         | Some availableQty => ret (InsufficientStock availableQty)
         | None =>
             (rentalReply <- request (insert_rental (fun id =>
                Rental.mk id
                  (FormData.client_id formData)
                  (FormData.rental_date formData)
                  (FormData.expected_return_date formData)
                  None active
                  (calculateTotal rentalItems)
                  now user_id None)) ;;
              rental <- orThrow rentalReply ;;
              itemsReply <- request (insert_rental_items
                (rentalItemsData (Rental.id rental) rentalItems)) ;;
              orThrow itemsReply ;;;
              updateStock stockItems now rentalItems ;;;
              ret Success)%async
         end)
        throw
  end.

(** Lines 466-487: reload the stock rows; a failed request leaves the page's
    copy as it was.  The first request is the select of the categories. *)
Definition fetchStockData (stockItems : list StockItem.t) : Async (list StockItem.t) :=
  (categoriesResult <- request (select (fun _ => tt)) ;;
   itemsResult <- request (select stock_items) ;;
   match categoriesResult, itemsResult with
   | Data _, Data rows => ret rows
   | _, _ => ret stockItems
   end)%async.


(** Lines 489-497: a new line for one plate of the first category, at the
    rate of that category; nothing without categories. *)
Definition addRentalItem (stockCategories : list StockCategory.t)
  (rentalItems : list RentalItemForm.t) : list RentalItemForm.t :=
  match stockCategories with
  | [] => rentalItems
  | first :: _ =>
      rentalItems ++ [RentalItemForm.mk (StockCategory.id first) 1 (StockCategory.daily_rate first)]
  end.

(** [array.filter((_, i) => keep(i))], counting from [i]. *)
Fixpoint filter_index {A : Type} (keep : nat -> bool) (i : nat) (l : list A) : list A :=
  match l with
  | [] => []
  | x :: l' => if keep i then x :: filter_index keep (S i) l' else filter_index keep (S i) l'
  end.

(** Lines 521-523. *)
Definition removeRentalItem (index : nat) (rentalItems : list RentalItemForm.t)
  : list RentalItemForm.t :=
  filter_index (fun i => negb (Nat.eqb i index)) 0 rentalItems.

End Udhar.

(** ** Client ledgers (the Khata Wahi page, first part of
    [src/pages/KhataWahi.tsx]) *)

Module KhataWahi.

Record ClientLedger := mkLedger {
  client : Client.t;
  activeRentals : list Rental.t;
  totalOutstanding : Money;
  totalPaid : Money;
  currentBalance : Money;
  recentPayments : list Payment.t }.

(** Lines 43-53: the client's rentals that are active or partially returned,
    with their line items. *)
Definition selectActiveRentals (client_id : Id) (s : Store) : list Rental.t :=
  map (with_rental_items s)
    (filter (fun r =>
               Nat.eqb (Rental.client_id r) client_id
               && (RentalStatus_eqb (Rental.status r) active
                   || RentalStatus_eqb (Rental.status r) partially_returned))
       (rentals s)).

(** All the payments of a client. *)
Definition paymentsOf (client_id : Id) (s : Store) : list Payment.t :=
  filter (fun p => Nat.eqb (Payment.client_id p) client_id) (payments s).

(** Lines 58-63: the client's payments, latest first, cut after ten rows. *)
Definition selectPayments (client_id : Id) (s : Store) : list Payment.t :=
  firstn 10
    (order_by (fun a b => Payment.payment_date b <=? Payment.payment_date a)
       (paymentsOf client_id s)).

(** Lines 67-79: the totals of one client from the two fetched lists.  On a
    number [x || 0] is [x]. *)
Definition ledgerOf (client : Client.t) (activeRentals : list Rental.t)
  (payments : list Payment.t) : ClientLedger :=
  let totalOutstanding :=
    fold_left (fun sum rental => sum + Rental.total_amount rental) activeRentals 0 in
  let totalPaid := fold_left (fun sum payment => sum + Payment.amount payment) payments 0 in
  let currentBalance := totalOutstanding - totalPaid in
  mkLedger client activeRentals totalOutstanding totalPaid currentBalance payments.

(** Lines 41-80: the loop over the clients. *)
Fixpoint ledgersOf (clientRows : list Client.t) : Async (list ClientLedger) :=
  match clientRows with
  | [] => ret []
  | client :: rest =>
      (rentalsReply <- request (select (selectActiveRentals (Client.id client))) ;;
       activeRentals <- orThrow rentalsReply ;;
       paymentsReply <- request (select (selectPayments (Client.id client))) ;;
       payments <- orThrow paymentsReply ;;
       ledgers <- ledgersOf rest ;;
       ret (ledgerOf client activeRentals payments :: ledgers))%async
  end.

(** Lines 29-89: the new value of the page's ledger list; it keeps its old
    value when a request fails. *)
Definition fetchClientLedgers (clientLedgers : list ClientLedger)
  : Async (list ClientLedger) :=
  tryCatch
    (clientsReply <- request (select (fun s =>
        order_by (fun a b => String.leb (Client.name a) (Client.name b)) (clients s))) ;;
     clientRows <- orThrow clientsReply ;;
     ledgersOf clientRows)%async
    (ret clientLedgers).

End KhataWahi.

(** ** A working session

    One user working through the pages: issuing rentals on the Udhar page,
    whose copy of the stock rows is reloaded after every issuance that ends
    with the success toast (line 611) and whenever a change of the stock
    table is announced; and processing returns on the Jama page. *)

Module Session.

Inductive Operation :=
| Issue (user : option Id) (formData : Udhar.FormData.t)
    (rentalItems : list Udhar.RentalItemForm.t) (now : Date)
| Return (user : option Id) (selectedRental : option Rental.t)
    (returnFormData : Jama.ReturnFormData.t)
    (returnItems : list Jama.ReturnItemFormData.t) (now : Date)
| Reload.

Record t := mk { world : World; stockItems : list StockItem.t }.

Definition step (served : nat -> bool) (op : Operation) (st : t) : t :=
  match op with
  | Issue user formData rentalItems now =>
      match Udhar.handleSubmit user (stockItems st) formData rentalItems now
              served (world st) with
      | (Normal Success, w) =>
          let (reloaded, w') := Udhar.fetchStockData (stockItems st) served w in
          mk w' (match reloaded with Normal rows => rows | Thrown => stockItems st end)
      | (_, w) => mk w (stockItems st)
      end
  | Return user selectedRental returnFormData returnItems now =>
      let (_, w) := Jama.handleSubmit user selectedRental returnFormData returnItems now
                      served (world st) in
      mk w (stockItems st)
  | Reload =>
      let (reloaded, w) := Udhar.fetchStockData (stockItems st) served (world st) in
      mk w (match reloaded with Normal rows => rows | Thrown => stockItems st end)
  end.

(** The states after each operation of a sequence, in order. *)
Fixpoint trace (served : nat -> bool) (ops : list Operation) (st : t) : list t :=
  match ops with
  | [] => []
  | op :: ops' => let st' := step served op st in st' :: trace served ops' st'
  end.

End Session.

(** ** The dashboard ([src/pages/Dashboard.tsx]) *)

Module Dashboard.

Record DashboardStats := mkStats {
  activeRentals : Z;
  totalClients : Z;
  availableStock : Z;
  pendingReturns : Z;
  totalRevenue : Z;
  overdueRentals : Z }.

(** [.in('status', ['active', 'partially_returned'])] *)
Definition isOpen (r : Rental.t) : bool :=
  RentalStatus_eqb (Rental.status r) active
  || RentalStatus_eqb (Rental.status r) partially_returned.

(** [count || 0]: a reply with an error carries no count. *)
Definition countOrZero (reply : Reply nat) : Z :=
  match reply with
  | Data n => Z.of_nat n
  | StoreError => 0
  end.

(** [data?.reduce((sum, x) => sum + x, 0) || 0]: a reply with an error
    carries no data. *)
Definition sumOrZero (reply : Reply (list Z)) : Z :=
  match reply with
  | Data rows => fold_left (fun sum x => sum + x) rows 0
  | StoreError => 0
  end.

(** Lines 42-93.  No reply is inspected for an error.  [today] is the current
    day, which the code writes as a yyyy-mm-dd string and the store compares
    with the expected return date; a rental without one is never overdue. *)
Definition fetchDashboardStats (today : Date) : Async DashboardStats :=
  (activeReply <- request (select (fun s => List.length (filter isOpen (rentals s)))) ;;
   clientsReply <- request (select (fun s => List.length (clients s))) ;;
   stockReply <- request (select (fun s =>
      map StockItem.available_quantity (stock_items s))) ;;
   let availableStock := sumOrZero stockReply in
   let pendingReturns := countOrZero activeReply in
   paymentsReply <- request (select (fun s => map Payment.amount (payments s))) ;;
   let totalRevenue := sumOrZero paymentsReply in
   overdueReply <- request (select (fun s =>
      List.length
        (filter (fun r =>
                   isOpen r
                   && match Rental.expected_return_date r with
                      | Some d => d <? today
                      | None => false
                      end)
           (rentals s)))) ;;
   ret (mkStats (countOrZero activeReply) (countOrZero clientsReply) availableStock
          pendingReturns totalRevenue (countOrZero overdueReply)))%async.

End Dashboard.

(** ** Stock management ([src/pages/Stock.tsx]) *)

Module Stock.

(** The stock form.  Its two further fields, the minimum stock level and the
    location, go to columns that the stock rows of this development do not
    carry. *)
Module StockFormData.
Record t := mk {
  category_id : Id;
  total_quantity : Z;
  available_quantity : Z }.
End StockFormData.

(** Lines 190-199: the form opened on a stock row. *)
Definition openStockModal (stock : StockItem.t) : option StockItem.t * StockFormData.t :=
  (Some stock,
   StockFormData.mk (StockItem.category_id stock) (StockItem.total_quantity stock)
     (StockItem.available_quantity stock)).

(** Lines 122-128: the patch of an edited row. *)
Definition editStock (form : StockFormData.t) (now : Date) (row : StockItem.t) : StockItem.t :=
  StockItem.mk (StockItem.id row) (StockFormData.category_id form)
    (StockFormData.total_quantity form) (StockFormData.available_quantity form)
    (StockItem.rented_quantity row) (StockItem.damaged_quantity row) now.

(** Lines 133-135: a new row; the database fills in the key, zero rented and
    damaged quantities and the time of the insert. *)
Definition insert_stock_item (form : StockFormData.t) (now : Date) (s : Store)
  : unit * Store :=
  (tt,
   mkStore (clients s)
     (stock_items s
      ++ [StockItem.mk (next_id s) (StockFormData.category_id form)
            (StockFormData.total_quantity form) (StockFormData.available_quantity form)
            0 0 now])
     (rentals s) (rental_items s) (returns s) (return_items s) (payments s) (invoices s)
     (S (next_id s))).

(** Lines 116-149. *)
Definition handleStockSubmit (user : option Id) (editingStock : option StockItem.t)
  (stockFormData : StockFormData.t) (now : Date) : Async Toast :=
  match user with
  | None => ret Silent
  | Some _ =>
      tryCatch
        (match editingStock with
         | Some stock =>
             (updateReply <- request (update_stock_item (StockItem.id stock)
                (editStock stockFormData now)) ;;
              orThrow updateReply ;;;
              ret Success)%async
         | None =>
             (insertReply <- request (insert_stock_item stockFormData now) ;;
              orThrow insertReply ;;;
              ret Success)%async
         end)
        (ret Failed)
  end.

End Stock.

(** ** Properties of the stored data *)

(** The quantity ledger of a stock row is balanced. *)
Definition balanced (row : StockItem.t) : Prop :=
  StockItem.available_quantity row + StockItem.rented_quantity row
  + StockItem.damaged_quantity row = StockItem.total_quantity row.

(** Two copies of stock rows are in step when rows with the same key carry
    the same number of plates that are either available or rented. *)
Definition in_step (copy rows : list StockItem.t) : Prop :=
  forall a b, In a copy -> In b rows -> StockItem.id a = StockItem.id b ->
    StockItem.available_quantity a + StockItem.rented_quantity a
    = StockItem.available_quantity b + StockItem.rented_quantity b.

(** What a session keeps true: the rows of the store are balanced, and the
    page's copy and the store are in step. *)
Definition sound (copy rows : list StockItem.t) : Prop :=
  Forall balanced rows /\ in_step copy rows /\ in_step rows rows.

(** Sum of a list of amounts. *)
Definition sumZ (l : list Z) : Z := fold_right Z.add 0 l.

(** ** Sample data

    One client, one category of plates rented at 25 a day, and a rental of
    five plates issued at instant 0. *)

Definition day (n : Z) : Date := n * Billing.msPerDay.

Definition plates : Id := 10%nat.

Definition sample_item : RentalItem.t := RentalItem.mk 31%nat 30%nat plates 5 25 0.

Definition sample_rental : Rental.t :=
  Rental.mk 30%nat 1%nat (day 0) None None active 125 (day 0) 7%nat None.

Definition sample_store : Store :=
  mkStore [Client.mk 1%nat "Asha"]
    [StockItem.mk 20%nat plates 100 95 5 0 (day 0)]
    [sample_rental] [sample_item] [] [] [] [] 40%nat.

(** The rental as the Jama and billing pages hold it, with its line items. *)
Definition selected_rental : Rental.t := with_rental_items sample_store sample_rental.

(** The form of the Jama page for that rental, filled in on day 4 by user 7,
    and a submission for its only line item. *)
Definition sample_form : Jama.ReturnFormData.t := Jama.ReturnFormData.mk 30%nat (day 4).

Definition submission (quantity : Z) (condition : Condition) (damage_cost : Money)
  : Jama.ReturnItemFormData.t :=
  Jama.ReturnItemFormData.mk 31%nat quantity condition damage_cost.

Definition process_return (returnItems : list Jama.ReturnItemFormData.t)
  (served : nat -> bool) : Completion Toast * Store :=
  outcome (Jama.handleSubmit (Some 7%nat) (Some selected_rental) sample_form returnItems (day 4))
    served sample_store.

(** A store with six plates left, and a request whose two lines ask for four
    and for five plates of that one category. *)
Definition scarce_store : Store :=
  mkStore [Client.mk 1%nat "Asha"]
    [StockItem.mk 20%nat plates 100 6 94 0 (day 0)]
    [] [] [] [] [] [] 40%nat.

Definition issue (s : Store) (rentalItems : list Udhar.RentalItemForm.t)
  (served : nat -> bool) : Completion Toast * Store :=
  outcome (Udhar.handleSubmit (Some 7%nat) (stock_items s)
             (Udhar.FormData.mk 1%nat (day 1) None) rentalItems (day 1))
    served s.

(** A session on the sample store: forty plates go out, two plates of the
    first rental come back damaged, the page reloads, thirty more go out. *)
Definition sample_session : list Session.Operation :=
  [Session.Issue (Some 7%nat) (Udhar.FormData.mk 1%nat (day 1) None)
     [Udhar.RentalItemForm.mk plates 40 25] (day 1);
   Session.Return (Some 7%nat) (Some selected_rental) sample_form
     [submission 2 damaged 500] (day 4);
   Session.Reload;
   Session.Issue (Some 7%nat) (Udhar.FormData.mk 1%nat (day 5) None)
     [Udhar.RentalItemForm.mk plates 30 25] (day 5)].

(** The sample store after the client has paid 100 on each of eleven days. *)
Definition eleven_payments : list Payment.t :=
  map (fun k => Payment.mk (100 + k)%nat 1%nat 100 (day (Z.of_nat k))) (seq 1 11).

Definition paid_store : Store :=
  mkStore (clients sample_store) (stock_items sample_store) (rentals sample_store)
    (rental_items sample_store) [] [] eleven_payments [] 200%nat.

(** A store before any rental; five plates at 25 a day issued from it at day
    0; and the invoice of that rental drawn up on day 4. *)
Definition opening_store : Store :=
  mkStore [Client.mk 1%nat "Asha"]
    [StockItem.mk 20%nat plates 100 100 0 0 (day 0)]
    [] [] [] [] [] [] 30%nat.

Definition issued_store : Store :=
  snd (outcome (Udhar.handleSubmit (Some 7%nat) (stock_items opening_store)
                  (Udhar.FormData.mk 1%nat (day 0) None)
                  [Udhar.RentalItemForm.mk plates 5 25] (day 0))
         always opening_store).

Definition issued_rental : Rental.t :=
  with_rental_items issued_store (hd sample_rental (rentals issued_store)).

Definition invoiced_store : Store :=
  snd (outcome (Billing.generateInvoice Billing.fullDays (Some 7%nat) (Some issued_rental)
                  (Billing.InvoiceFormData.mk 1%nat 30%nat (day 4) (day 34) 18) (day 4))
         always issued_store).

(** The store after two of the five plates came back, the rental as the Jama
    page loads it from that store, and the return of the three plates that
    are still out. *)
Definition after_first_return : Store := snd (process_return [submission 2 good 0] always).

Definition reloaded_rental : Rental.t :=
  with_rental_items after_first_return (hd sample_rental (rentals after_first_return)).

Definition second_return : Completion Toast * Store :=
  outcome (Jama.handleSubmit (Some 7%nat) (Some reloaded_rental)
             (Jama.ReturnFormData.mk 30%nat (day 6)) [submission 3 good 0] (day 6))
    always after_first_return.

(** The session that starts on the store with six plates left and issues four
    of them, the store refusing its fifth request: the select of the stock
    rows in the reload that follows the issuance.  Then a request for five
    plates, made from the page as that session left it. *)
Definition after_refused_reload : Session.t :=
  Session.step (failing_at 4)
    (Session.Issue (Some 7%nat) (Udhar.FormData.mk 1%nat (day 1) None)
       [Udhar.RentalItemForm.mk plates 4 25] (day 1))
    (Session.mk (mkWorld scarce_store 0) (stock_items scarce_store)).

Definition issue_on_stale_copy : Completion Toast * World :=
  Udhar.handleSubmit (Some 7%nat) (Session.stockItems after_refused_reload)
    (Udhar.FormData.mk 1%nat (day 2) None) [Udhar.RentalItemForm.mk plates 5 25] (day 2)
    (failing_at 4) (Session.world after_refused_reload).

(** * Theorems *)

Lemma fold_left_add_sumZ {A : Type} (f : A -> Z) (l : list A) (acc : Z) :
  fold_left (fun total x => total + f x) l acc = acc + sumZ (map f l).
Proof.
  revert acc; induction l as [|x l IH]; intro acc; simpl.
  - lia.
  - rewrite IH. lia.
Qed.

Lemma sumZ_scale {A : Type} (f : A -> Z) (d : Z) (l : list A) :
  sumZ (map (fun x => f x * d) l) = d * sumZ (map f l).
Proof.
  unfold sumZ. induction l as [|x l IH]; simpl; [lia|].
  rewrite IH. lia.
Qed.

(** ** Rental accrual *)

Section AccrualFacts.

Variable differenceInDays : Date -> Date -> Z.

Lemma calculateRentalAmount_eq (today : Date) (rental : Rental.t) (items : list RentalItem.t) :
  Rental.rental_items rental = Some items ->
  Billing.calculateRentalAmount differenceInDays today rental
  = sumZ (map (fun item => RentalItem.quantity item * RentalItem.daily_rate item
                           * Billing.days differenceInDays today rental) items).
Proof.
  intro Hitems. unfold Billing.calculateRentalAmount. rewrite Hitems.
  now rewrite fold_left_add_sumZ.
Qed.

(** The live amount is the one-day charge times the number of billed days. *)
Lemma calculateRentalAmount_scale (today : Date) (rental : Rental.t) (items : list RentalItem.t) :
  Rental.rental_items rental = Some items ->
  Billing.calculateRentalAmount differenceInDays today rental
  = Billing.days differenceInDays today rental
    * sumZ (map (fun item => RentalItem.quantity item * RentalItem.daily_rate item) items).
Proof.
  intro Hitems. rewrite (calculateRentalAmount_eq today rental items Hitems).
  apply (sumZ_scale (fun item => RentalItem.quantity item * RentalItem.daily_rate item)).
Qed.

End AccrualFacts.

(** C1.  For a rental that carries its line items, the accrual calculation
    returns the sum over the items of quantity x daily_rate x days, where
    days = max(1, differenceInDays(end, start) + 1) and end is the actual
    return date when it is set and the evaluation instant otherwise.  When
    end equals start (date-fns counts no day from an instant to itself),
    days is 1 and the result is the sum of quantity x daily_rate.  The
    statement needs no assumption that the list is non-empty. *)
Theorem calculateRentalAmount_accrual
  (differenceInDays : Date -> Date -> Z) (today : Date) (rental : Rental.t)
  (items : list RentalItem.t) :
  Rental.rental_items rental = Some items ->
  let end_date :=
    match Rental.actual_return_date rental with Some d => d | None => today end in
  let days := Z.max 1 (differenceInDays end_date (Rental.rental_date rental) + 1) in
  Billing.calculateRentalAmount differenceInDays today rental
  = sumZ (map (fun item => RentalItem.quantity item * RentalItem.daily_rate item * days) items)
  /\ ((forall d, differenceInDays d d = 0) ->
      end_date = Rental.rental_date rental ->
      days = 1
      /\ Billing.calculateRentalAmount differenceInDays today rental
         = sumZ (map (fun item => RentalItem.quantity item * RentalItem.daily_rate item) items)).
Proof.
  intros Hitems end_date days.
  assert (Hdays : Billing.days differenceInDays today rental = days) by reflexivity.
  split.
  - rewrite (calculateRentalAmount_eq differenceInDays today rental items Hitems).
    now rewrite Hdays.
  - intros Hself Hsame.
    assert (Hone : days = 1).
    { unfold days. rewrite Hsame, Hself. reflexivity. }
    split; [exact Hone|].
    rewrite (calculateRentalAmount_scale differenceInDays today rental items Hitems).
    rewrite Hdays, Hone. lia.
Qed.

Lemma fullDays_self (d : Date) : Billing.fullDays d d = 0.
Proof. unfold Billing.fullDays. now rewrite Z.sub_diag. Qed.

(** Scenario A of the specification: two plates at 25 a day, issued at day 0
    and returned on day 4, accrue 250 over 5 days; and returned on the day of
    issue they accrue 50. *)
Lemma calculateRentalAmount_accrual_witness :
  Billing.calculateRentalAmount Billing.fullDays (day 9)
    (Rental.mk 30%nat 1%nat (day 0) None (Some (day 4)) completed 50 (day 4) 7%nat
       (Some [RentalItem.mk 31%nat 30%nat plates 2 25 2])) = 250
  /\ Billing.calculateRentalAmount Billing.fullDays (day 9)
       (Rental.mk 30%nat 1%nat (day 0) None (Some (day 0)) completed 50 (day 0) 7%nat
          (Some [RentalItem.mk 31%nat 30%nat plates 2 25 2])) = 50.
Proof.
  split.
  - exact (proj1 (calculateRentalAmount_accrual Billing.fullDays (day 9)
      (Rental.mk 30%nat 1%nat (day 0) None (Some (day 4)) completed 50 (day 4) 7%nat
         (Some [RentalItem.mk 31%nat 30%nat plates 2 25 2]))
      [RentalItem.mk 31%nat 30%nat plates 2 25 2] eq_refl)).
  - exact (proj2 (proj2 (calculateRentalAmount_accrual Billing.fullDays (day 9)
      (Rental.mk 30%nat 1%nat (day 0) None (Some (day 0)) completed 50 (day 0) 7%nat
         (Some [RentalItem.mk 31%nat 30%nat plates 2 25 2]))
      [RentalItem.mk 31%nat 30%nat plates 2 25 2] eq_refl) fullDays_self eq_refl)).
Defined.

(** ** Return processing *)

(** The three requests of the return handler, one after the other. *)
Lemma Jama_handleSubmit_run (served : nat -> bool) (user_id : Id) (rental : Rental.t)
  (form : Jama.ReturnFormData.t) (items : list Jama.ReturnItemFormData.t) (now : Date)
  (w : World) :
  Jama.handleSubmit (Some user_id) (Some rental) form items now served w
  = let header :=
      ReturnRecord.mk (next_id (db w)) (Jama.ReturnFormData.rental_id form)
        (Jama.ReturnFormData.return_date form) (Jama.calculateTotalDamageCost items) user_id in
    let s1 := snd (insert_return (fun id =>
      ReturnRecord.mk id (Jama.ReturnFormData.rental_id form)
        (Jama.ReturnFormData.return_date form) (Jama.calculateTotalDamageCost items) user_id)
      (db w)) in
    let s2 := snd (insert_return_items
      (Jama.returnItemsData (ReturnRecord.id header) items) s1) in
    let s3 := snd (update_rental (Rental.id rental)
      (Jama.closeRental
         (if Jama.allItemsReturned rental items then completed else partially_returned)
         (Jama.ReturnFormData.return_date form) now) s2) in
    if served (sent w) then
      if served (S (sent w)) then
        if served (S (S (sent w)))
        then (Normal Success, mkWorld s3 (S (S (S (sent w)))))
        else (Normal Success, mkWorld s2 (S (S (S (sent w)))))
      else (Normal Failed, mkWorld s1 (S (S (sent w))))
    else (Normal Failed, mkWorld (db w) (S (sent w))).
Proof.
  unfold Jama.handleSubmit, tryCatch, bind, request, orThrow, ret, throw. cbn.
  destruct (served (sent w)); cbn; [|reflexivity].
  destruct (served (S (sent w))); cbn; [|reflexivity].
  destruct (served (S (S (sent w)))); reflexivity.
Qed.

(** No path of the return handler writes to the stock rows or to the rental
    line items, and none changes the amount stored with a rental. *)
Lemma Jama_handleSubmit_untouched (served : nat -> bool) (user : option Id)
  (selectedRental : option Rental.t) (form : Jama.ReturnFormData.t)
  (items : list Jama.ReturnItemFormData.t) (now : Date) (w : World) :
  let w' := snd (Jama.handleSubmit user selectedRental form items now served w) in
  stock_items (db w') = stock_items (db w)
  /\ rental_items (db w') = rental_items (db w)
  /\ map Rental.total_amount (rentals (db w')) = map Rental.total_amount (rentals (db w)).
Proof.
  destruct user as [user_id|], selectedRental as [rental|]; try (cbn; now repeat split).
  rewrite Jama_handleSubmit_run. cbv zeta.
  destruct (served (sent w)); [|cbn; now repeat split].
  destruct (served (S (sent w))); [|cbn; now repeat split].
  destruct (served (S (S (sent w)))); cbn; repeat split; try reflexivity.
  unfold update_rows. rewrite map_map. apply map_ext. intro r.
  now destruct (Nat.eqb (Rental.id r) (Rental.id rental)).
Qed.

Lemma stored_quantities (n return_id : Id) (items : list Jama.ReturnItemFormData.t) :
  map ReturnItem.returned_quantity (assign_ids n (Jama.returnItemsData return_id items))
  = filter (fun q => 0 <? q) (map Jama.ReturnItemFormData.returned_quantity items).
Proof.
  unfold Jama.returnItemsData. revert n.
  induction items as [|item items IH]; intro n; cbn; [reflexivity|].
  destruct (0 <? Jama.ReturnItemFormData.returned_quantity item); cbn.
  - now rewrite IH.
  - apply IH.
Qed.

(** The handler taken alone, on a batch that the form does not let through.
    Five plates are pending on the sample rental; a submission of six is
    outside the bounds of the form's input.  The handler itself raises
    nothing: it ends with the success toast, and the store then holds a
    Return header and a ReturnItem of six plates. *)
Lemma over_pending_return_is_stored :
  Jama.pendingQuantity sample_item = 5
  /\ Jama.quantityInRange sample_item (submission 6 good 0) = false
  /\ fst (process_return [submission 6 good 0] always) = Normal Success
  /\ returns (snd (process_return [submission 6 good 0] always))
     = [ReturnRecord.mk 40%nat 30%nat (day 4) 0 7%nat]
  /\ return_items (snd (process_return [submission 6 good 0] always))
     = [ReturnItem.mk 41%nat 40%nat 31%nat 6 good 0]
  /\ snd (process_return [submission 6 good 0] always) <> sample_store.
Proof.
  repeat split; try reflexivity.
  intro H. apply (f_equal returns) in H. discriminate H.
Qed.

(** Nor does the handler taken alone reject a negative submission: it is
    left out of the stored return items, and the header is stored all the
    same. *)
Lemma negative_return_is_dropped :
  Jama.quantityInRange sample_item (submission (-1) good 0) = false
  /\ fst (process_return [submission (-1) good 0] always) = Normal Success
  /\ returns (snd (process_return [submission (-1) good 0] always))
     = [ReturnRecord.mk 40%nat 30%nat (day 4) 0 7%nat]
  /\ return_items (snd (process_return [submission (-1) good 0] always)) = [].
Proof. repeat split; reflexivity. Qed.

(** What the handler stores.  It checks no quantity itself, the bounds being
    those of the form ([Jama.formValid]): when the store serves its requests
    the handler ends with the success toast, the Return header is stored, and
    the stored ReturnItems are the submissions with a positive quantity, each
    with the quantity as submitted; submissions with a zero quantity are left
    out. *)
Theorem return_batch_is_not_validated (user_id : Id) (rental : Rental.t)
  (form : Jama.ReturnFormData.t) (items : list Jama.ReturnItemFormData.t) (now : Date)
  (s : Store) :
  let result := outcome (Jama.handleSubmit (Some user_id) (Some rental) form items now)
                  always s in
  fst result = Normal Success
  /\ returns (snd result)
     = returns s ++ [ReturnRecord.mk (next_id s) (Jama.ReturnFormData.rental_id form)
                       (Jama.ReturnFormData.return_date form)
                       (Jama.calculateTotalDamageCost items) user_id]
  /\ exists stored,
       return_items (snd result) = return_items s ++ stored
       /\ map ReturnItem.return_id stored = map (fun _ => next_id s) stored
       /\ map ReturnItem.returned_quantity stored
          = filter (fun q => 0 <? q) (map Jama.ReturnItemFormData.returned_quantity items).
Proof.
  unfold outcome. rewrite Jama_handleSubmit_run. cbn.
  repeat split.
  exists (assign_ids (S (next_id s)) (Jama.returnItemsData (next_id s) items)).
  repeat split.
  - unfold Jama.returnItemsData.
    generalize (S (next_id s)) as n.
    induction (filter (fun item => 0 <? Jama.ReturnItemFormData.returned_quantity item) items)
      as [|item l IH]; intro n; cbn; [reflexivity|].
    now rewrite IH.
  - apply stored_quantities.
Qed.

(** C3.  Two of the five plates of the sample rental come back in good
    condition.  The handler ends with the success toast, and the stored
    returned_quantity of the line item is still 0, not 2: no request of the
    handler writes to the rental line items. *)
Theorem returned_quantity_not_advanced :
  fst (process_return [submission 2 good 0] always) = Normal Success
  /\ map ReturnItem.returned_quantity
       (return_items (snd (process_return [submission 2 good 0] always))) = [2]
  /\ map RentalItem.returned_quantity
       (rental_items (snd (process_return [submission 2 good 0] always))) = [0].
Proof. repeat split; reflexivity. Qed.

(** What follows from it: when the three remaining plates come back, the
    handler adds them to a returned quantity that is still 0, so the rental,
    with all five plates back, stays partially returned and gets no actual
    return date. *)
Lemma rental_never_completes :
  fst second_return = Normal Success
  /\ map ReturnItem.returned_quantity (return_items (snd second_return)) = [2; 3]
  /\ map RentalItem.returned_quantity (rental_items (snd second_return)) = [0]
  /\ map Rental.status (rentals (snd second_return)) = [partially_returned]
  /\ map Rental.actual_return_date (rentals (snd second_return)) = [None].
Proof. repeat split; reflexivity. Qed.

(** C4.  After the same return of two plates in good condition, and after a
    return of two damaged plates, the stock row of the category still shows
    95 available, 5 rented and 0 damaged: the handler sends no request to
    the stock table. *)
Theorem stock_not_restored_by_return :
  fst (process_return [submission 2 good 0] always) = Normal Success
  /\ map (fun row => (StockItem.available_quantity row, StockItem.rented_quantity row,
                      StockItem.damaged_quantity row))
       (stock_items (snd (process_return [submission 2 good 0] always))) = [(95, 5, 0)]
  /\ fst (process_return [submission 2 damaged 500] always) = Normal Success
  /\ map (fun row => (StockItem.available_quantity row, StockItem.rented_quantity row,
                      StockItem.damaged_quantity row))
       (stock_items (snd (process_return [submission 2 damaged 500] always))) = [(95, 5, 0)].
Proof. repeat split; reflexivity. Qed.

(** C5, counterexample.  The store refuses the second request, the insert of
    the return items.  The handler ends with the failure toast, and the
    Return header of the first request stays in the store. *)
Lemma failed_return_leaves_header :
  fst (process_return [submission 2 good 0] (failing_at 1)) = Normal Failed
  /\ returns sample_store = []
  /\ returns (snd (process_return [submission 2 good 0] (failing_at 1)))
     = [ReturnRecord.mk 40%nat 30%nat (day 4) 0 7%nat].
Proof. repeat split; reflexivity. Qed.

(** C5, as amended.  The requests of return processing are sent one after
    the other and nothing undoes a request that was served.  When the insert
    of the Return header fails, the handler ends with the failure toast and
    the store is as before.  When the header is stored and the insert of the
    return items fails, the handler ends with the failure toast, the header
    stays stored, and the return items, rentals, rental line items and stock
    rows are as before. *)
Theorem return_processing_not_atomic (served : nat -> bool) (user_id : Id)
  (rental : Rental.t) (form : Jama.ReturnFormData.t)
  (items : list Jama.ReturnItemFormData.t) (now : Date) (s : Store) :
  let result := outcome (Jama.handleSubmit (Some user_id) (Some rental) form items now)
                  served s in
  (served 0%nat = false -> result = (Normal Failed, s))
  /\ (served 0%nat = true -> served 1%nat = false ->
      fst result = Normal Failed
      /\ returns (snd result)
         = returns s ++ [ReturnRecord.mk (next_id s) (Jama.ReturnFormData.rental_id form)
                           (Jama.ReturnFormData.return_date form)
                           (Jama.calculateTotalDamageCost items) user_id]
      /\ return_items (snd result) = return_items s
      /\ rentals (snd result) = rentals s
      /\ rental_items (snd result) = rental_items s
      /\ stock_items (snd result) = stock_items s).
Proof.
  unfold outcome. rewrite Jama_handleSubmit_run. cbn.
  split.
  - intros ->. now destruct s.
  - intros -> ->. cbn. now repeat split.
Qed.

Lemma return_processing_not_atomic_witness :
  process_return [submission 2 good 0] (failing_at 0) = (Normal Failed, sample_store)
  /\ returns (snd (process_return [submission 2 good 0] (failing_at 1)))
     = returns sample_store ++ [ReturnRecord.mk 40%nat 30%nat (day 4) 0 7%nat].
Proof.
  split.
  - exact (proj1 (return_processing_not_atomic (failing_at 0) 7%nat selected_rental
      sample_form [submission 2 good 0] (day 4) sample_store) eq_refl).
  - exact (proj1 (proj2 (proj2 (return_processing_not_atomic (failing_at 1) 7%nat
      selected_rental sample_form [submission 2 good 0] (day 4) sample_store)
      eq_refl eq_refl))).
Defined.

(** ** Rental issuance *)

Lemma updateStock_normal (stockItems : list StockItem.t) (now : Date)
  (rentalItems : list Udhar.RentalItemForm.t) (served : nat -> bool) (w : World) :
  fst (Udhar.updateStock stockItems now rentalItems served w) = Normal tt.
Proof.
  revert w. induction rentalItems as [|item rest IH]; intro w; cbn; [reflexivity|].
  destruct (Udhar.findStockItem stockItems (Udhar.RentalItemForm.category_id item)); [|apply IH].
  unfold bind, request. destruct (served (sent w)); cbn; apply IH.
Qed.

(** The requests of the issuance handler once every line passed the
    availability check. *)
Lemma Udhar_handleSubmit_run (served : nat -> bool) (user_id : Id)
  (stockItems : list StockItem.t) (form : Udhar.FormData.t)
  (rentalItems : list Udhar.RentalItemForm.t) (now : Date) (w : World) :
  rentalItems <> [] ->
  Udhar.firstShortage stockItems rentalItems = None ->
  Udhar.handleSubmit (Some user_id) stockItems form rentalItems now served w
  = let row := fun id =>
      Rental.mk id (Udhar.FormData.client_id form) (Udhar.FormData.rental_date form)
        (Udhar.FormData.expected_return_date form) None active
        (Udhar.calculateTotal rentalItems) now user_id None in
    let s1 := snd (insert_rental row (db w)) in
    let s2 := snd (insert_rental_items
      (Udhar.rentalItemsData (next_id (db w)) rentalItems) s1) in
    if served (sent w) then
      if served (S (sent w))
      then (Normal Success,
            snd (Udhar.updateStock stockItems now rentalItems served
                   (mkWorld s2 (S (S (sent w))))))
      else (Thrown, mkWorld s1 (S (S (sent w))))
    else (Thrown, mkWorld (db w) (S (sent w))).
Proof.
  intros Hne Hnone. destruct rentalItems as [|item rest]; [congruence|].
  unfold Udhar.handleSubmit. rewrite Hnone.
  unfold tryCatch, bind at 1 2 3 4, request at 1 2, orThrow, ret, throw. cbn -[Udhar.updateStock].
  destruct (served (sent w)); cbn -[Udhar.updateStock]; [|reflexivity].
  destruct (served (S (sent w))); cbn -[Udhar.updateStock]; [|reflexivity].
  unfold bind.
  pose proof (updateStock_normal stockItems now (item :: rest) served
    (mkWorld (snd (insert_rental_items
       (Udhar.rentalItemsData (next_id (db w)) (item :: rest))
       (snd (insert_rental (fun id =>
          Rental.mk id (Udhar.FormData.client_id form) (Udhar.FormData.rental_date form)
            (Udhar.FormData.expected_return_date form) None active
            (Udhar.calculateTotal (item :: rest)) now user_id None) (db w)))))
       (S (S (sent w))))) as Hn.
  cbn -[Udhar.updateStock] in Hn |- *.
  destruct (Udhar.updateStock _ _ _ _ _) as [c w']. cbn in Hn. subst c. reflexivity.
Qed.

(** The availability loop lets a request through exactly when every line,
    taken alone, asks for no more than the copy shows as available. *)
Lemma firstShortage_None (stockItems : list StockItem.t)
  (rentalItems : list Udhar.RentalItemForm.t) :
  Udhar.firstShortage stockItems rentalItems = None
  <-> Forall (fun item =>
                Udhar.RentalItemForm.quantity item
                <= Udhar.getAvailableQuantity stockItems (Udhar.RentalItemForm.category_id item))
        rentalItems.
Proof.
  induction rentalItems as [|item rest IH]; cbn.
  - split; [constructor|reflexivity].
  - destruct (Z.ltb_spec
               (Udhar.getAvailableQuantity stockItems (Udhar.RentalItemForm.category_id item))
               (Udhar.RentalItemForm.quantity item)) as [Hlt|Hge].
    + split; [discriminate|]. intro H. inversion H; subst. lia.
    + rewrite IH. split.
      * intro H. now constructor.
      * intro H. now inversion H.
Qed.

(** A request that fails the availability check changes nothing. *)
Lemma Udhar_handleSubmit_shortage (served : nat -> bool) (user_id : Id)
  (stockItems : list StockItem.t) (form : Udhar.FormData.t)
  (rentalItems : list Udhar.RentalItemForm.t) (now : Date) (w : World) (available : Z) :
  rentalItems <> [] ->
  Udhar.firstShortage stockItems rentalItems = Some available ->
  Udhar.handleSubmit (Some user_id) stockItems form rentalItems now served w
  = (Normal (InsufficientStock available), w).
Proof.
  intros Hne Hshort. destruct rentalItems as [|item rest]; [congruence|].
  unfold Udhar.handleSubmit. rewrite Hshort. reflexivity.
Qed.

Lemma findStockItem_update_rows (category key : Id) (patch : StockItem.t -> StockItem.t)
  (rows : list StockItem.t) :
  (forall row, StockItem.category_id (patch row) = StockItem.category_id row) ->
  Udhar.findStockItem (update_rows StockItem.id key patch rows) category
  = option_map (fun row => if Nat.eqb (StockItem.id row) key then patch row else row)
      (Udhar.findStockItem rows category).
Proof.
  intro Hcat. unfold Udhar.findStockItem, update_rows.
  induction rows as [|row rows IH]; cbn; [reflexivity|].
  assert (Hsame : StockItem.category_id
                    (if Nat.eqb (StockItem.id row) key then patch row else row)
                  = StockItem.category_id row).
  { destruct (Nat.eqb (StockItem.id row) key); [apply Hcat|reflexivity]. }
  rewrite Hsame.
  destruct (Nat.eqb (StockItem.category_id row) category); [reflexivity|apply IH].
Qed.

(** A request of any number of lines, one of which asks for more than the
    copy shows as available, is refused and the store is unchanged. *)
Lemma issue_refused_on_any_shortage (served : nat -> bool) (user_id : Id)
  (stockItems : list StockItem.t) (form : Udhar.FormData.t)
  (rentalItems : list Udhar.RentalItemForm.t) (now : Date) (s : Store) :
  Exists (fun item =>
            Udhar.getAvailableQuantity stockItems (Udhar.RentalItemForm.category_id item)
            < Udhar.RentalItemForm.quantity item) rentalItems ->
  exists available,
    outcome (Udhar.handleSubmit (Some user_id) stockItems form rentalItems now) served s
    = (Normal (InsufficientStock available), s).
Proof.
  intro Hex.
  assert (Hne : rentalItems <> []) by (intros ->; inversion Hex).
  destruct (Udhar.firstShortage stockItems rentalItems) as [available|] eqn:Hshort.
  - exists available. unfold outcome.
    now rewrite (Udhar_handleSubmit_shortage served user_id stockItems form rentalItems now
                   (mkWorld s 0) available Hne Hshort).
  - exfalso. apply firstShortage_None in Hshort.
    apply Exists_exists in Hex as (item & Hin & Hlt).
    rewrite Forall_forall in Hshort. specialize (Hshort item Hin). lia.
Qed.

(** A request for [qty] plates of one category, checked against a copy
    of the stock rows that is up to date.  When [qty] exceeds the available
    quantity of the category, the handler ends with the insufficient-stock
    toast and the store is unchanged, whatever the store would have answered.
    Otherwise, when the store serves the three requests of the handler, it
    ends with the success toast and the stock row of the category has its
    available quantity decreased and its rented quantity increased by [qty],
    the damaged and total quantities staying as they were. *)
Theorem issue_checks_and_moves_stock (served : nat -> bool) (user_id : Id)
  (form : Udhar.FormData.t) (category : Id) (qty : Z) (rate : Money) (now : Date)
  (s : Store) :
  let available := Udhar.getAvailableQuantity (stock_items s) category in
  let result :=
    outcome (Udhar.handleSubmit (Some user_id) (stock_items s) form
               [Udhar.RentalItemForm.mk category qty rate] now) served s in
  (available < qty -> result = (Normal (InsufficientStock available), s))
  /\ (qty <= available ->
      served 0%nat = true -> served 1%nat = true -> served 2%nat = true ->
      forall stockItem,
        Udhar.findStockItem (stock_items s) category = Some stockItem ->
        fst result = Normal Success
        /\ exists row,
             Udhar.findStockItem (stock_items (snd result)) category = Some row
             /\ StockItem.available_quantity row = StockItem.available_quantity stockItem - qty
             /\ StockItem.rented_quantity row = StockItem.rented_quantity stockItem + qty
             /\ StockItem.damaged_quantity row = StockItem.damaged_quantity stockItem
             /\ StockItem.total_quantity row = StockItem.total_quantity stockItem).
Proof.
  intros available result. subst result. unfold outcome. split.
  - intro Hlt.
    rewrite (Udhar_handleSubmit_shortage served user_id (stock_items s) form
               [Udhar.RentalItemForm.mk category qty rate] now (mkWorld s 0) available).
    + reflexivity.
    + discriminate.
    + cbn. fold available. apply Z.ltb_lt in Hlt. now rewrite Hlt.
  - intros Hle H0 H1 H2 stockItem Hfind.
    rewrite Udhar_handleSubmit_run.
    + cbn -[Udhar.findStockItem update_rows]. rewrite H0, H1.
      cbn -[Udhar.findStockItem update_rows].
      rewrite Hfind. unfold bind, request. cbn -[Udhar.findStockItem update_rows].
      rewrite H2. cbn -[Udhar.findStockItem update_rows]. split; [reflexivity|].
      exists (Udhar.issueFrom stockItem qty now stockItem).
      split; [|now repeat split].
      rewrite findStockItem_update_rows by reflexivity.
      rewrite Hfind. cbn. now rewrite Nat.eqb_refl.
    + discriminate.
    + cbn. fold available. apply Z.ltb_ge in Hle. now rewrite Hle.
Qed.

(** Scenario D of the specification, on the store with six plates left: a
    request for ten is refused and nothing changes; a request for four is
    granted and leaves two available. *)
Lemma issue_checks_and_moves_stock_witness :
  issue scarce_store [Udhar.RentalItemForm.mk plates 10 25] always
  = (Normal (InsufficientStock 6), scarce_store)
  /\ fst (issue scarce_store [Udhar.RentalItemForm.mk plates 4 25] always) = Normal Success.
Proof.
  split.
  - apply (proj1 (issue_checks_and_moves_stock always 7%nat
      (Udhar.FormData.mk 1%nat (day 1) None) plates 10 25 (day 1) scarce_store)).
    reflexivity.
  - apply (proj2 (issue_checks_and_moves_stock always 7%nat
      (Udhar.FormData.mk 1%nat (day 1) None) plates 4 25 (day 1) scarce_store))
      with (stockItem := StockItem.mk 20%nat plates 100 6 94 0 (day 0));
      try reflexivity.
    cbn. lia.
Defined.

(** C10.  There is an issuance with two lines of one category that passes:
    on the store with six plates left, the lines ask for four and for five.
    Each line is checked on its own against the page's copy of the stock row
    (four and five are both at most six) although together they ask for nine.
    The handler ends with the success toast and both lines are stored, and
    the stock row ends with the counts computed from the copy for the last
    line alone: 6 - 5 available and 94 + 5 rented, not 6 - 9 and 94 + 9. *)
Theorem duplicate_category_overissues :
  exists (s : Store) (first second : Udhar.RentalItemForm.t) (stockItem : StockItem.t),
    let result := issue s [first; second] always in
    Udhar.RentalItemForm.category_id first = Udhar.RentalItemForm.category_id second
    /\ Udhar.findStockItem (stock_items s) (Udhar.RentalItemForm.category_id first)
       = Some stockItem
    /\ Udhar.RentalItemForm.quantity first <= StockItem.available_quantity stockItem
    /\ Udhar.RentalItemForm.quantity second <= StockItem.available_quantity stockItem
    /\ StockItem.available_quantity stockItem
       < Udhar.RentalItemForm.quantity first + Udhar.RentalItemForm.quantity second
    /\ Udhar.firstShortage (stock_items s) [first; second] = None
    /\ fst result = Normal Success
    /\ map RentalItem.quantity (rental_items (snd result))
       = [Udhar.RentalItemForm.quantity first; Udhar.RentalItemForm.quantity second]
    /\ map (fun row => (StockItem.available_quantity row, StockItem.rented_quantity row))
         (stock_items (snd result))
       = [(StockItem.available_quantity stockItem - Udhar.RentalItemForm.quantity second,
           StockItem.rented_quantity stockItem + Udhar.RentalItemForm.quantity second)]
    /\ StockItem.available_quantity stockItem - Udhar.RentalItemForm.quantity second
       <> StockItem.available_quantity stockItem
          - (Udhar.RentalItemForm.quantity first + Udhar.RentalItemForm.quantity second).
Proof.
  exists scarce_store, (Udhar.RentalItemForm.mk plates 4 25),
    (Udhar.RentalItemForm.mk plates 5 25), (StockItem.mk 20%nat plates 100 6 94 0 (day 0)).
  cbv zeta. repeat split; try reflexivity; cbn; lia.
Qed.

(** ** The quantity ledger along a session *)

Lemma NoDup_keys_in_step (rows : list StockItem.t) :
  NoDup (map StockItem.id rows) -> in_step rows rows.
Proof.
  intros Hnd a b Ha Hb Hid.
  enough (a = b) by now subst.
  induction rows as [|row rows IH]; [contradiction|].
  cbn in Hnd. inversion Hnd as [|k ks Hnotin Hnd']; subst.
  destruct Ha as [->|Ha], Hb as [->|Hb]; auto.
  - exfalso. apply Hnotin. rewrite Hid. now apply in_map.
  - exfalso. apply Hnotin. rewrite <- Hid. now apply in_map.
Qed.

(** Writing to the rows of one key the counts computed from a copy that is in
    step keeps the rows balanced and in step. *)
Lemma issueFrom_sound (copy rows : list StockItem.t) (stockItem : StockItem.t)
  (quantity : Z) (now : Date) :
  sound copy rows -> In stockItem copy ->
  sound copy
    (update_rows StockItem.id (StockItem.id stockItem)
       (Udhar.issueFrom stockItem quantity now) rows).
Proof.
  intros (Hbal & Hcopy & Hrows) Hin. unfold update_rows.
  repeat split.
  - apply Forall_forall. intros row' Hrow'.
    apply in_map_iff in Hrow' as (row & <- & Hrow).
    rewrite Forall_forall in Hbal. specialize (Hbal row Hrow).
    destruct (Nat.eqb (StockItem.id row) (StockItem.id stockItem)) eqn:E; [|exact Hbal].
    apply Nat.eqb_eq in E. symmetry in E.
    specialize (Hcopy stockItem row Hin Hrow E).
    unfold balanced in *. cbn. lia.
  - intros a b' Ha Hb' Hid.
    apply in_map_iff in Hb' as (b & <- & Hb).
    destruct (Nat.eqb (StockItem.id b) (StockItem.id stockItem)) eqn:E.
    + apply Nat.eqb_eq in E. cbn in Hid |- *.
      pose proof (Hcopy a b Ha Hb Hid).
      pose proof (Hcopy stockItem b Hin Hb (eq_sym E)). lia.
    + now apply Hcopy.
  - intros a' b' Ha' Hb' Hid.
    apply in_map_iff in Ha' as (a & <- & Ha).
    apply in_map_iff in Hb' as (b & <- & Hb).
    destruct (Nat.eqb (StockItem.id a) (StockItem.id stockItem)) eqn:Ea;
      destruct (Nat.eqb (StockItem.id b) (StockItem.id stockItem)) eqn:Eb;
      cbn in Hid |- *.
    + lia.
    + apply Nat.eqb_eq in Ea. apply Nat.eqb_neq in Eb. congruence.
    + apply Nat.eqb_neq in Ea. apply Nat.eqb_eq in Eb. congruence.
    + now apply Hrows.
Qed.

Lemma updateStock_sound (copy stockItems : list StockItem.t) (now : Date)
  (rentalItems : list Udhar.RentalItemForm.t) (served : nat -> bool) (w : World) :
  incl stockItems copy ->
  sound copy (stock_items (db w)) ->
  sound copy (stock_items (db (snd (Udhar.updateStock stockItems now rentalItems served w)))).
Proof.
  intro Hincl. revert w.
  induction rentalItems as [|item rest IH]; intros w Hsound; cbn; [exact Hsound|].
  destruct (Udhar.findStockItem stockItems (Udhar.RentalItemForm.category_id item))
    as [stockItem|] eqn:Hfind; [|now apply IH].
  unfold bind, request. destruct (served (sent w)); cbn.
  - apply IH. cbn. apply issueFrom_sound; [exact Hsound|].
    apply Hincl. unfold Udhar.findStockItem in Hfind. now apply find_some in Hfind.
  - now apply IH.
Qed.

Lemma Udhar_handleSubmit_sound (served : nat -> bool) (user : option Id)
  (stockItems : list StockItem.t) (form : Udhar.FormData.t)
  (rentalItems : list Udhar.RentalItemForm.t) (now : Date) (w : World) :
  sound stockItems (stock_items (db w)) ->
  sound stockItems
    (stock_items (db (snd (Udhar.handleSubmit user stockItems form rentalItems now served w)))).
Proof.
  intro Hsound.
  destruct user as [user_id|]; [|exact Hsound].
  destruct rentalItems as [|item rest] eqn:Hitems; [exact Hsound|]. rewrite <- Hitems.
  assert (Hne : rentalItems <> []) by (rewrite Hitems; discriminate).
  destruct (Udhar.firstShortage stockItems rentalItems) as [available|] eqn:Hshort.
  - now rewrite (Udhar_handleSubmit_shortage served user_id stockItems form rentalItems now w
                   available Hne Hshort).
  - rewrite (Udhar_handleSubmit_run served user_id stockItems form rentalItems now w Hne Hshort).
    cbv zeta. destruct (served (sent w)); [|exact Hsound].
    destruct (served (S (sent w))); [|exact Hsound].
    cbn [snd]. apply updateStock_sound; [apply incl_refl|exact Hsound].
Qed.

(** Reloading the stock rows changes nothing in the store and gives either
    the rows of the store or the copy the page had. *)
Lemma fetchStockData_run (stockItems : list StockItem.t) (served : nat -> bool) (w : World) :
  exists rows,
    Udhar.fetchStockData stockItems served w
    = (Normal rows, mkWorld (db w) (S (S (sent w))))
    /\ (rows = stock_items (db w) \/ rows = stockItems).
Proof.
  unfold Udhar.fetchStockData, bind, request, select, ret. cbn.
  destruct (served (sent w)); cbn; destruct (served (S (sent w))); cbn; eauto.
Qed.

Lemma step_sound (served : nat -> bool) (op : Session.Operation) (st : Session.t) :
  sound (Session.stockItems st) (stock_items (db (Session.world st))) ->
  sound (Session.stockItems (Session.step served op st))
    (stock_items (db (Session.world (Session.step served op st)))).
Proof.
  intro Hsound. destruct op as [user form rentalItems now|user rental form items now|]; cbn.
  - pose proof (Udhar_handleSubmit_sound served user (Session.stockItems st) form rentalItems
                  now (Session.world st) Hsound) as Hnext.
    destruct (Udhar.handleSubmit user (Session.stockItems st) form rentalItems now served
                (Session.world st)) as [[[| | |available]|] w]; cbn in Hnext |- *;
      try exact Hnext.
    destruct (fetchStockData_run (Session.stockItems st) served w) as (rows & -> & Hrows).
    cbn. destruct Hrows as [->| ->]; [|exact Hnext].
    destruct Hnext as (Hbal & _ & Hrows). now repeat split.
  - pose proof (Jama_handleSubmit_untouched served user rental form items now
                  (Session.world st)) as (Hstock & _).
    destruct (Jama.handleSubmit user rental form items now served (Session.world st))
      as [c w]. cbn in Hstock |- *. now rewrite Hstock.
  - destruct (fetchStockData_run (Session.stockItems st) served (Session.world st))
      as (rows & -> & Hrows).
    cbn. destruct Hrows as [->| ->]; [|exact Hsound].
    destruct Hsound as (Hbal & _ & Hrows). now repeat split.
Qed.

Lemma trace_sound (served : nat -> bool) (ops : list Session.Operation) (st : Session.t) :
  sound (Session.stockItems st) (stock_items (db (Session.world st))) ->
  Forall (fun st' => sound (Session.stockItems st') (stock_items (db (Session.world st'))))
    (Session.trace served ops st).
Proof.
  revert st. induction ops as [|op ops IH]; intros st Hsound; cbn; constructor.
  - now apply step_sound.
  - apply IH. now apply step_sound.
Qed.

(** C7.  A session starts from a store whose stock rows are balanced
    (available + rented + damaged = total) and have distinct keys, with the
    page's copy of the rows freshly loaded.  Then after every operation of
    every finite sequence of issuances, returns (of goods in any condition)
    and reloads, whatever requests the store refuses on the way, every stock
    row of the store is balanced. *)
Theorem ledger_balanced_after_every_operation (served : nat -> bool)
  (ops : list Session.Operation) (s : Store) (n : nat) :
  Forall balanced (stock_items s) ->
  NoDup (map StockItem.id (stock_items s)) ->
  Forall (fun st => Forall balanced (stock_items (db (Session.world st))))
    (Session.trace served ops (Session.mk (mkWorld s n) (stock_items s))).
Proof.
  intros Hbal Hkeys.
  eapply Forall_impl; [|apply trace_sound].
  - intros st (H & _). exact H.
  - cbn. pose proof (NoDup_keys_in_step _ Hkeys). now repeat split.
Qed.

Lemma ledger_balanced_after_every_operation_witness :
  Forall (fun st => Forall balanced (stock_items (db (Session.world st))))
    (Session.trace always sample_session
       (Session.mk (mkWorld sample_store 0) (stock_items sample_store))).
Proof.
  apply (ledger_balanced_after_every_operation always sample_session sample_store 0).
  - repeat constructor.
  - repeat constructor. intros [].
Defined.

(** ** Client ledgers *)

Lemma ledgersOf_always (clientRows : list Client.t) (w : World) :
  KhataWahi.ledgersOf clientRows always w
  = (Normal (map (fun client =>
               KhataWahi.ledgerOf client
                 (KhataWahi.selectActiveRentals (Client.id client) (db w))
                 (KhataWahi.selectPayments (Client.id client) (db w))) clientRows),
     mkWorld (db w) (2 * List.length clientRows + sent w)).
Proof.
  revert w. induction clientRows as [|client rest IH]; intro w.
  - now destruct w.
  - cbn [KhataWahi.ledgersOf]. unfold bind at 1 2 3 4, request, select, orThrow, ret, always.
    cbn [db sent]. unfold bind. rewrite IH. cbn [db sent map List.length].
    do 2 f_equal. lia.
Qed.

(** When the store serves every request, the page holds one ledger for each
    client, in the order of the names, and the store is as before. *)
Lemma fetchClientLedgers_always (old : list KhataWahi.ClientLedger) (s : Store) :
  outcome (KhataWahi.fetchClientLedgers old) always s
  = (Normal (map (fun client =>
               KhataWahi.ledgerOf client
                 (KhataWahi.selectActiveRentals (Client.id client) s)
                 (KhataWahi.selectPayments (Client.id client) s))
               (order_by (fun a b => String.leb (Client.name a) (Client.name b)) (clients s))),
     s).
Proof.
  unfold outcome, KhataWahi.fetchClientLedgers, tryCatch, bind, request, select, orThrow,
    ret, always.
  cbn [db sent]. now rewrite ledgersOf_always.
Qed.

(** The totals of a ledger: the outstanding total is the sum of the stored
    amounts of the client's rentals that are active or partially returned,
    the paid total is the sum of the fetched payments, and the balance is
    their difference. *)
Lemma ledger_totals (client : Client.t) (s : Store) :
  let ledger := KhataWahi.ledgerOf client
                  (KhataWahi.selectActiveRentals (Client.id client) s)
                  (KhataWahi.selectPayments (Client.id client) s) in
  KhataWahi.totalOutstanding ledger
  = sumZ (map Rental.total_amount
            (filter (fun r =>
                       Nat.eqb (Rental.client_id r) (Client.id client)
                       && (RentalStatus_eqb (Rental.status r) active
                           || RentalStatus_eqb (Rental.status r) partially_returned))
               (rentals s)))
  /\ KhataWahi.totalPaid ledger
     = sumZ (map Payment.amount (KhataWahi.selectPayments (Client.id client) s))
  /\ KhataWahi.currentBalance ledger
     = KhataWahi.totalOutstanding ledger - KhataWahi.totalPaid ledger.
Proof.
  cbn. rewrite !fold_left_add_sumZ. unfold KhataWahi.selectActiveRentals.
  rewrite map_map. cbn. repeat split; lia.
Qed.

Lemma sumZ_insert_ordered {R : Type} (before : R -> R -> bool) (f : R -> Z) (x : R)
  (l : list R) :
  sumZ (map f (insert_ordered before x l)) = f x + sumZ (map f l).
Proof.
  unfold sumZ. induction l as [|y l IH]; cbn; [reflexivity|].
  destruct (before x y); cbn; [reflexivity|]. rewrite IH. lia.
Qed.

Lemma length_insert_ordered {R : Type} (before : R -> R -> bool) (x : R) (l : list R) :
  List.length (insert_ordered before x l) = S (List.length l).
Proof.
  induction l as [|y l IH]; cbn; [reflexivity|].
  destruct (before x y); cbn; [reflexivity|]. now rewrite IH.
Qed.

Lemma sumZ_order_by {R : Type} (before : R -> R -> bool) (f : R -> Z) (l : list R) :
  sumZ (map f (order_by before l)) = sumZ (map f l)
  /\ List.length (order_by before l) = List.length l.
Proof.
  unfold order_by. induction l as [|x l [IHs IHl]]; cbn; [now split|].
  rewrite sumZ_insert_ordered, length_insert_ordered, IHl. split; [|reflexivity].
  unfold sumZ in *. cbn. now rewrite IHs.
Qed.

(** For a client with at most ten payments the paid total is the sum of all
    the payments of the client. *)
Lemma totalPaid_all_when_at_most_ten (client : Client.t) (s : Store) :
  (List.length (KhataWahi.paymentsOf (Client.id client) s) <= 10)%nat ->
  KhataWahi.totalPaid
    (KhataWahi.ledgerOf client
       (KhataWahi.selectActiveRentals (Client.id client) s)
       (KhataWahi.selectPayments (Client.id client) s))
  = sumZ (map Payment.amount (KhataWahi.paymentsOf (Client.id client) s)).
Proof.
  intro Hlen. unfold KhataWahi.ledgerOf. cbn [KhataWahi.totalPaid].
  rewrite fold_left_add_sumZ. unfold KhataWahi.selectPayments.
  destruct (sumZ_order_by (fun a b => Payment.payment_date b <=? Payment.payment_date a)
              Payment.amount (KhataWahi.paymentsOf (Client.id client) s)) as [Hsum Hl].
  rewrite firstn_all2 by (rewrite Hl; exact Hlen).
  rewrite Hsum. apply Z.add_0_l.
Qed.

(** C8.  The client of the sample store has an open rental with a stored
    amount of 125 and has made eleven payments of 100.  The ledger shows an
    outstanding total of 125, as the claim says, and a paid total of 1000
    and a balance of -875, where the sum of all the payments of the client
    is 1100: the select of the payments is cut after the ten latest rows. *)
Theorem totalPaid_misses_older_payments :
  sumZ (map Payment.amount (KhataWahi.paymentsOf 1%nat paid_store)) = 1100
  /\ exists ledger,
       outcome (KhataWahi.fetchClientLedgers []) always paid_store
       = (Normal [ledger], paid_store)
       /\ KhataWahi.totalOutstanding ledger = 125
       /\ KhataWahi.totalPaid ledger = 1000
       /\ KhataWahi.currentBalance ledger = -875
       /\ List.length (KhataWahi.recentPayments ledger) = 10%nat.
Proof.
  split; [reflexivity|].
  rewrite fetchClientLedgers_always. eexists. split; [reflexivity|].
  repeat split; reflexivity.
Qed.

(** ** The amount stored with a rental *)

Lemma updateStock_rentals (stockItems : list StockItem.t) (now : Date)
  (rentalItems : list Udhar.RentalItemForm.t) (served : nat -> bool) (w : World) :
  rentals (db (snd (Udhar.updateStock stockItems now rentalItems served w))) = rentals (db w).
Proof.
  revert w. induction rentalItems as [|item rest IH]; intro w; cbn; [reflexivity|].
  destruct (Udhar.findStockItem stockItems (Udhar.RentalItemForm.category_id item)); [|apply IH].
  unfold bind, request. destruct (served (sent w)); cbn; now rewrite IH.
Qed.

(** C9, counterexample.  Five plates at 25 a day are issued at day 0; the
    stored amount of the rental is 125.  On day 4 the accrued amount is 625,
    and that is the subtotal of the invoice drawn up that day; the amount
    stored with the rental is still 125. *)
Lemma total_amount_is_not_the_invoiced_amount :
  map Rental.total_amount (rentals issued_store) = [125]
  /\ Billing.calculateRentalAmount Billing.fullDays (day 4) issued_rental = 625
  /\ map Invoice.subtotal (invoices invoiced_store) = [625]
  /\ map Rental.total_amount (rentals invoiced_store) = [125]
  /\ map Rental.total_amount (rentals invoiced_store)
     <> [Billing.calculateRentalAmount Billing.fullDays (day 4) issued_rental].
Proof. repeat split; try reflexivity. discriminate. Qed.

(** C9, as amended.  The amount stored with a rental is a snapshot taken when
    the rental is issued: the sum of quantity x daily_rate over the lines of
    the request, one day's charge.  Drawing up an invoice stores the amount
    accrued at that instant as the subtotal of the invoice and leaves the
    rentals as they are, and processing a return leaves the stored amount of
    every rental as it is: the stored amount is kept apart from the live
    accrual and is not recomputed as time passes. *)
Theorem total_amount_is_issuance_snapshot :
  (forall (served : nat -> bool) (user_id : Id) (stockItems : list StockItem.t)
          (form : Udhar.FormData.t) (rentalItems : list Udhar.RentalItemForm.t)
          (now : Date) (s : Store),
      rentalItems <> [] ->
      Udhar.firstShortage stockItems rentalItems = None ->
      served 0%nat = true ->
      rentals (snd (outcome (Udhar.handleSubmit (Some user_id) stockItems form rentalItems now)
                      served s))
      = rentals s
        ++ [Rental.mk (next_id s) (Udhar.FormData.client_id form)
              (Udhar.FormData.rental_date form) (Udhar.FormData.expected_return_date form)
              None active
              (sumZ (map (fun item => Udhar.RentalItemForm.quantity item
                                      * Udhar.RentalItemForm.daily_rate item) rentalItems))
              now user_id None])
  /\ (forall (differenceInDays : Date -> Date -> Z) (served : nat -> bool) (user_id : Id)
             (rental : Rental.t) (form : Billing.InvoiceFormData.t) (today : Date)
             (s : Store),
         let after := snd (outcome (Billing.generateInvoice differenceInDays (Some user_id)
                                      (Some rental) form today) served s) in
         rentals after = rentals s
         /\ (served 0%nat = true ->
             invoices after
             = invoices s
               ++ [Invoice.mk (next_id s) (Billing.InvoiceFormData.client_id form)
                     (Billing.InvoiceFormData.rental_id form)
                     (Billing.InvoiceFormData.issue_date form)
                     (Billing.InvoiceFormData.due_date form)
                     (Billing.calculateRentalAmount differenceInDays today rental)
                     (Billing.InvoiceFormData.tax_rate form) user_id]))
  /\ (forall (served : nat -> bool) (user : option Id) (selectedRental : option Rental.t)
             (form : Jama.ReturnFormData.t) (items : list Jama.ReturnItemFormData.t)
             (now : Date) (s : Store),
         map Rental.total_amount
           (rentals (snd (outcome (Jama.handleSubmit user selectedRental form items now)
                            served s)))
         = map Rental.total_amount (rentals s)).
Proof.
  repeat split.
  - intros served user_id stockItems form rentalItems now s Hne Hnone H0.
    unfold outcome.
    rewrite (Udhar_handleSubmit_run served user_id stockItems form rentalItems now
               (mkWorld s 0) Hne Hnone).
    cbn [db sent]. rewrite H0. cbv zeta.
    unfold Udhar.calculateTotal. rewrite fold_left_add_sumZ, Z.add_0_l.
    destruct (served 1%nat); cbn [snd db]; [|reflexivity].
    now rewrite updateStock_rentals.
  - unfold outcome, Billing.generateInvoice, tryCatch, bind, request, orThrow, ret, throw.
    cbn. now destruct (served 0%nat).
  - intro H0. unfold outcome, Billing.generateInvoice, tryCatch, bind, request, orThrow,
      ret, throw.
    cbn. now rewrite H0.
  - intros served user selectedRental form items now s. unfold outcome.
    pose proof (Jama_handleSubmit_untouched served user selectedRental form items now
                  (mkWorld s 0)) as (_ & _ & Hamount).
    destruct (Jama.handleSubmit user selectedRental form items now served (mkWorld s 0))
      as [c w]. exact Hamount.
Qed.

Lemma total_amount_is_issuance_snapshot_witness :
  rentals issued_store
  = rentals opening_store
    ++ [Rental.mk 30%nat 1%nat (day 0) None None active 125 (day 0) 7%nat None]
  /\ invoices invoiced_store
     = invoices issued_store
       ++ [Invoice.mk 32%nat 1%nat 30%nat (day 4) (day 34) 625 18 7%nat].
Proof.
  split.
  - apply (proj1 total_amount_is_issuance_snapshot always 7%nat (stock_items opening_store)
             (Udhar.FormData.mk 1%nat (day 0) None) [Udhar.RentalItemForm.mk plates 5 25]
             (day 0) opening_store); [discriminate|reflexivity|reflexivity].
  - apply (proj2 (proj1 (proj2 total_amount_is_issuance_snapshot) Billing.fullDays always
             7%nat issued_rental (Billing.InvoiceFormData.mk 1%nat 30%nat (day 4) (day 34) 18)
             (day 4) issued_store)). reflexivity.
Defined.

(** * Further properties of the pages *)

(** ** Invoices *)

Lemma pdfItems_sum (differenceInDays : Date -> Date -> Z) (today : Date) (rental : Rental.t) :
  sumZ (map Billing.InvoiceLine.amount (Billing.pdfItems differenceInDays today rental))
  = Billing.calculateRentalAmount differenceInDays today rental.
Proof.
  unfold Billing.pdfItems, Billing.calculateRentalAmount.
  destruct (Rental.rental_items rental) as [items|]; [|reflexivity].
  rewrite fold_left_add_sumZ, map_map. reflexivity.
Qed.

(** X1.  The rows of the items table of the PDF add up to the accrued amount
    of the rental at the instant of rendering, and the amount of every row is
    its quantity times its rate. *)
Theorem pdfItems_add_up (differenceInDays : Date -> Date -> Z) (today : Date)
  (rental : Rental.t) :
  sumZ (map Billing.InvoiceLine.amount (Billing.pdfItems differenceInDays today rental))
  = Billing.calculateRentalAmount differenceInDays today rental
  /\ Forall (fun line =>
               Billing.InvoiceLine.amount line
               = Billing.InvoiceLine.quantity line * Billing.InvoiceLine.rate line)
       (Billing.pdfItems differenceInDays today rental).
Proof.
  split; [apply pdfItems_sum|].
  unfold Billing.pdfItems.
  destruct (Rental.rental_items rental) as [items|]; [|constructor].
  apply Forall_forall. intros line Hin.
  apply in_map_iff in Hin as (item & <- & _). cbn. lia.
Qed.

(** X2.  Once a rental has its actual return date, its accrued amount does
    not depend on the instant of evaluation: at every instant it is the sum
    of quantity x daily_rate x days over its line items, the days counted
    from the rental date to the actual return date. *)
Theorem closed_rental_amount_is_fixed (differenceInDays : Date -> Date -> Z)
  (rental : Rental.t) (returned : Date) (earlier later : Date) :
  Rental.actual_return_date rental = Some returned ->
  Billing.calculateRentalAmount differenceInDays later rental
  = Billing.calculateRentalAmount differenceInDays earlier rental
  /\ forall items,
       Rental.rental_items rental = Some items ->
       Billing.calculateRentalAmount differenceInDays later rental
       = sumZ (map (fun item =>
                      RentalItem.quantity item * RentalItem.daily_rate item
                      * Z.max 1 (differenceInDays returned (Rental.rental_date rental) + 1))
                 items).
Proof.
  intro Hclosed.
  assert (Hdays : forall today,
            Billing.days differenceInDays today rental
            = Z.max 1 (differenceInDays returned (Rental.rental_date rental) + 1)).
  { intro today. unfold Billing.days, Billing.returnDate. now rewrite Hclosed. }
  split.
  - unfold Billing.calculateRentalAmount. now rewrite !Hdays.
  - intros items Hitems.
    rewrite (calculateRentalAmount_eq differenceInDays later rental items Hitems).
    now rewrite Hdays.
Qed.

Lemma closed_rental_amount_is_fixed_witness :
  Billing.calculateRentalAmount Billing.fullDays (day 90)
    (Rental.mk 30%nat 1%nat (day 0) None (Some (day 4)) completed 50 (day 4) 7%nat
       (Some [RentalItem.mk 31%nat 30%nat plates 2 25 2]))
  = Billing.calculateRentalAmount Billing.fullDays (day 5)
      (Rental.mk 30%nat 1%nat (day 0) None (Some (day 4)) completed 50 (day 4) 7%nat
         (Some [RentalItem.mk 31%nat 30%nat plates 2 25 2])).
Proof.
  exact (proj1 (closed_rental_amount_is_fixed Billing.fullDays
    (Rental.mk 30%nat 1%nat (day 0) None (Some (day 4)) completed 50 (day 4) 7%nat
       (Some [RentalItem.mk 31%nat 30%nat plates 2 25 2]))
    (day 4) (day 5) (day 90) eq_refl)).
Defined.

Lemma sumZ_map_le {A : Type} (f g : A -> Z) (l : list A) :
  (forall x, In x l -> f x <= g x) -> sumZ (map f l) <= sumZ (map g l).
Proof.
  unfold sumZ. induction l as [|x l IH]; intro H; cbn; [lia|].
  pose proof (H x (or_introl eq_refl)).
  assert (fold_right Z.add 0 (map f l) <= fold_right Z.add 0 (map g l)).
  { apply IH. intros y Hy. apply H. now right. }
  lia.
Qed.

(** X3.  While a rental is open its accrued amount never goes down as time
    passes, and it is never below one day's charge: this holds when no line
    has a negative charge (quantity x daily_rate) and the day count does not
    decrease when its first argument moves forward. *)
Theorem open_rental_amount_grows (differenceInDays : Date -> Date -> Z)
  (rental : Rental.t) (items : list RentalItem.t) (earlier later : Date) :
  (forall a b c, a <= b -> differenceInDays a c <= differenceInDays b c) ->
  Rental.rental_items rental = Some items ->
  Rental.actual_return_date rental = None ->
  Forall (fun item => 0 <= RentalItem.quantity item * RentalItem.daily_rate item) items ->
  earlier <= later ->
  sumZ (map (fun item => RentalItem.quantity item * RentalItem.daily_rate item) items)
  <= Billing.calculateRentalAmount differenceInDays earlier rental
  /\ Billing.calculateRentalAmount differenceInDays earlier rental
     <= Billing.calculateRentalAmount differenceInDays later rental.
Proof.
  intros Hmono Hitems Hopen Hcharge Hle.
  rewrite !(calculateRentalAmount_eq differenceInDays _ rental items Hitems).
  rewrite Forall_forall in Hcharge.
  assert (Hone : 1 <= Billing.days differenceInDays earlier rental) by apply Z.le_max_l.
  assert (Hdays : Billing.days differenceInDays earlier rental
                  <= Billing.days differenceInDays later rental).
  { unfold Billing.days, Billing.returnDate. rewrite Hopen.
    specialize (Hmono earlier later (Rental.rental_date rental) Hle). lia. }
  split; apply sumZ_map_le; intros item Hin; specialize (Hcharge item Hin); nia.
Qed.

Lemma fullDays_monotone (a b c : Date) :
  a <= b -> Billing.fullDays a c <= Billing.fullDays b c.
Proof.
  intro H. unfold Billing.fullDays. apply Z.quot_le_mono; [reflexivity|lia].
Qed.

Lemma open_rental_amount_grows_witness :
  Billing.calculateRentalAmount Billing.fullDays (day 2) selected_rental
  <= Billing.calculateRentalAmount Billing.fullDays (day 6) selected_rental.
Proof.
  apply (proj2 (open_rental_amount_grows Billing.fullDays selected_rental [sample_item]
                  (day 2) (day 6) fullDays_monotone eq_refl eq_refl
                  ltac:(repeat constructor; discriminate) ltac:(discriminate))).
Defined.

(** X4.  Drawing up an invoice is all or nothing.  Either the handler ends
    without the success toast and the store is exactly as it was (nobody
    signed in, no rental selected, or the insert refused), or it ends with the
    success toast and the one change to the store is a new invoice row for
    the rental of the form, whose subtotal is the amount accrued at that
    instant. *)
Theorem generateInvoice_all_or_nothing (differenceInDays : Date -> Date -> Z)
  (served : nat -> bool) (user : option Id) (selectedRental : option Rental.t)
  (form : Billing.InvoiceFormData.t) (today : Date) (s : Store) :
  let result := outcome (Billing.generateInvoice differenceInDays user selectedRental form today)
                  served s in
  (fst result <> Normal Success /\ snd result = s)
  \/ (fst result = Normal Success
      /\ exists user_id rental,
           user = Some user_id /\ selectedRental = Some rental
           /\ snd result
              = mkStore (clients s) (stock_items s) (rentals s) (rental_items s) (returns s)
                  (return_items s) (payments s)
                  (invoices s
                   ++ [Invoice.mk (next_id s) (Billing.InvoiceFormData.client_id form)
                         (Billing.InvoiceFormData.rental_id form)
                         (Billing.InvoiceFormData.issue_date form)
                         (Billing.InvoiceFormData.due_date form)
                         (Billing.calculateRentalAmount differenceInDays today rental)
                         (Billing.InvoiceFormData.tax_rate form) user_id])
                  (S (next_id s))).
Proof.
  unfold outcome, Billing.generateInvoice.
  destruct user as [user_id|], selectedRental as [rental|];
    try (left; cbn; split; [discriminate|reflexivity]).
  unfold tryCatch, bind, request, orThrow, ret, throw. cbn.
  destruct (served 0%nat); cbn.
  - right. split; [reflexivity|]. now exists user_id, rental.
  - left. split; [discriminate|reflexivity].
Qed.

(** X5.  A rental picked from the list of rentals to invoice is gone from
    that list once its invoice is stored and the page has reloaded: the form
    carries the key of the rental, the stored invoice refers to it, and the
    list leaves out every rental an invoice refers to. *)
Theorem invoiced_rental_not_offered_again (differenceInDays : Date -> Date -> Z)
  (format : Date -> Date) (served : nat -> bool) (page : Billing.Page.t) (user_id : Id)
  (rental : Rental.t) (now today : Date) (s : Store) :
  served 0%nat = true -> served 1%nat = true -> served 2%nat = true -> served 3%nat = true ->
  let (selectedRental, form) := Billing.openInvoiceModal format now rental in
  let (shown, w) :=
    Billing.generateInvoice differenceInDays (Some user_id) selectedRental form today
      served (mkWorld s 0) in
  let (reloaded, _) := Billing.fetchData page served w in
  shown = Normal Success
  /\ exists page',
       reloaded = Normal page'
       /\ forall r, In r (Billing.filteredRentals page') -> Rental.id r <> Rental.id rental.
Proof.
  intros H0 H1 H2 H3.
  unfold Billing.openInvoiceModal, Billing.generateInvoice, Billing.fetchData,
    tryCatch, bind, request, select, orThrow, ret, throw.
  cbn -[order_by rev]. rewrite H0. cbn -[order_by rev].
  rewrite H1. cbn -[order_by rev]. rewrite H2. cbn -[order_by rev].
  rewrite H3. cbn -[order_by rev]. split; [reflexivity|].
  eexists. split; [reflexivity|].
  intros r Hin Hid. unfold Billing.filteredRentals in Hin. cbn -[order_by rev] in Hin.
  apply filter_In in Hin as [_ Hnone].
  rewrite rev_app_distr in Hnone. cbn -[order_by] in Hnone.
  rewrite Hid, Nat.eqb_refl in Hnone. discriminate Hnone.
Qed.

Lemma invoiced_rental_not_offered_again_witness :
  let (selectedRental, form) := Billing.openInvoiceModal (fun d => d) (day 4) issued_rental in
  let (shown, w) :=
    Billing.generateInvoice Billing.fullDays (Some 7%nat) selectedRental form (day 4)
      always (mkWorld issued_store 0) in
  let (reloaded, _) := Billing.fetchData (Billing.Page.mk [] [] []) always w in
  shown = Normal Success
  /\ exists page',
       reloaded = Normal page'
       /\ forall r, In r (Billing.filteredRentals page')
                    -> Rental.id r <> Rental.id issued_rental.
Proof.
  exact (invoiced_rental_not_offered_again Billing.fullDays (fun d => d) always
           (Billing.Page.mk [] [] []) 7%nat issued_rental (day 4) (day 4) issued_store
           eq_refl eq_refl eq_refl eq_refl).
Defined.

(** ** Returns *)

Lemma sumZ_app (l l' : list Z) : sumZ (l ++ l') = sumZ l + sumZ l'.
Proof. unfold sumZ. induction l as [|x l IH]; cbn; [reflexivity|]. rewrite IH. lia. Qed.

Lemma stored_damage_costs (n return_id : Id) (items : list Jama.ReturnItemFormData.t) :
  map ReturnItem.damage_cost (assign_ids n (Jama.returnItemsData return_id items))
  = map Jama.ReturnItemFormData.damage_cost
      (filter (fun item => 0 <? Jama.ReturnItemFormData.returned_quantity item) items).
Proof.
  unfold Jama.returnItemsData. revert n.
  induction items as [|item items IH]; intro n; cbn; [reflexivity|].
  destruct (0 <? Jama.ReturnItemFormData.returned_quantity item); cbn.
  - now rewrite IH.
  - apply IH.
Qed.

Lemma sumZ_filter_split {A : Type} (f : A -> Z) (p : A -> bool) (l : list A) :
  sumZ (map f l)
  = sumZ (map f (filter p l)) + sumZ (map f (filter (fun x => negb (p x)) l)).
Proof.
  unfold sumZ. induction l as [|x l IH]; cbn; [reflexivity|].
  destruct (p x); cbn; rewrite IH; lia.
Qed.

(** X6.  The total damage cost stored with a Return is taken over the whole
    form, not over the rows that are stored: it is the sum of the damage
    costs of the stored ReturnItems plus the damage costs entered on the
    submissions that were left out for having no positive quantity. *)
Theorem total_damage_cost_counts_dropped_submissions (user_id : Id) (rental : Rental.t)
  (form : Jama.ReturnFormData.t) (items : list Jama.ReturnItemFormData.t) (now : Date)
  (s : Store) :
  let after := snd (outcome (Jama.handleSubmit (Some user_id) (Some rental) form items now)
                      always s) in
  exists header stored,
    returns after = returns s ++ [header]
    /\ return_items after = return_items s ++ stored
    /\ ReturnRecord.total_damage_cost header
       = sumZ (map ReturnItem.damage_cost stored)
         + sumZ (map Jama.ReturnItemFormData.damage_cost
                   (filter (fun item =>
                              negb (0 <? Jama.ReturnItemFormData.returned_quantity item))
                      items)).
Proof.
  unfold outcome. rewrite Jama_handleSubmit_run. cbn.
  eexists. eexists. split; [reflexivity|]. split; [reflexivity|].
  cbn. unfold Jama.calculateTotalDamageCost.
  rewrite fold_left_add_sumZ, stored_damage_costs. cbn.
  apply (sumZ_filter_split Jama.ReturnItemFormData.damage_cost
           (fun item => 0 <? Jama.ReturnItemFormData.returned_quantity item)).
Qed.

Lemma NoDup_map_In_eq {A B : Type} (f : A -> B) (l : list A) (a b : A) :
  NoDup (map f l) -> In a l -> In b l -> f a = f b -> a = b.
Proof.
  induction l as [|x l IH]; [contradiction|].
  cbn. intros Hnd Ha Hb Hf. inversion Hnd as [|k ks Hnotin Hnd']; subst.
  destruct Ha as [->|Ha], Hb as [->|Hb]; auto.
  - exfalso. apply Hnotin. rewrite Hf. now apply in_map.
  - exfalso. apply Hnotin. rewrite <- Hf. now apply in_map.
Qed.

Lemma find_unique_submission (batch : list Jama.ReturnItemFormData.t)
  (sub : Jama.ReturnItemFormData.t) (key : Id) :
  NoDup (map Jama.ReturnItemFormData.rental_item_id batch) ->
  In sub batch ->
  Jama.ReturnItemFormData.rental_item_id sub = key ->
  find (fun ri => Nat.eqb (Jama.ReturnItemFormData.rental_item_id ri) key) batch = Some sub.
Proof.
  intros Hnd Hsub Hid.
  destruct (find _ batch) as [sub'|] eqn:Hfind.
  - apply find_some in Hfind as [Hsub' Hid']. apply Nat.eqb_eq in Hid'.
    f_equal. apply (NoDup_map_In_eq Jama.ReturnItemFormData.rental_item_id batch); auto.
    congruence.
  - exfalso. pose proof (find_none _ _ Hfind sub Hsub) as Hno. cbn in Hno.
    rewrite Hid, Nat.eqb_refl in Hno. discriminate.
Qed.

(** X7.  When no two submissions of a batch name the same line item, the
    batch closes the rental exactly when every line item of the rental has a
    submission that returns at least what is pending on it. *)
Theorem allItemsReturned_iff (rental : Rental.t) (items : list RentalItem.t)
  (batch : list Jama.ReturnItemFormData.t) :
  Rental.rental_items rental = Some items ->
  NoDup (map Jama.ReturnItemFormData.rental_item_id batch) ->
  Jama.allItemsReturned rental batch = true
  <-> forall item, In item items ->
        exists sub, In sub batch
                    /\ Jama.ReturnItemFormData.rental_item_id sub = RentalItem.id item
                    /\ Jama.pendingQuantity item
                       <= Jama.ReturnItemFormData.returned_quantity sub.
Proof.
  intros Hitems Hnd. unfold Jama.allItemsReturned. rewrite Hitems, forallb_forall.
  unfold Jama.pendingQuantity.
  split.
  - intros H item Hin. specialize (H item Hin).
    destruct (find _ batch) as [sub|] eqn:Hfind; [|discriminate].
    apply find_some in Hfind as [Hsub Hid].
    apply Nat.eqb_eq in Hid. apply Z.leb_le in H.
    exists sub. repeat split; [exact Hsub|exact Hid|lia].
  - intros H item Hin. destruct (H item Hin) as (sub & Hsub & Hid & Hle).
    rewrite (find_unique_submission batch sub (RentalItem.id item) Hnd Hsub Hid).
    apply Z.leb_le. lia.
Qed.

Lemma allItemsReturned_iff_witness :
  Jama.allItemsReturned selected_rental [submission 5 good 0] = true.
Proof.
  apply (proj2 (allItemsReturned_iff selected_rental [sample_item] [submission 5 good 0]
                  eq_refl ltac:(repeat constructor; intros []))).
  intros item [<-|[]]. exists (submission 5 good 0).
  repeat split; [now left|cbn; lia].
Defined.

(** X8.  After a return whose three requests are served, every stored row of
    the rental is completed and carries the return date of the form when the
    batch closes the rental, and is partially returned without an actual
    return date otherwise; the rows of the other rentals are the rows that
    were there. *)
Theorem return_writes_status_and_date (served : nat -> bool) (user_id : Id)
  (rental : Rental.t) (form : Jama.ReturnFormData.t)
  (batch : list Jama.ReturnItemFormData.t) (now : Date) (s : Store) :
  served 0%nat = true -> served 1%nat = true -> served 2%nat = true ->
  let after := snd (outcome (Jama.handleSubmit (Some user_id) (Some rental) form batch now)
                      served s) in
  List.length (rentals after) = List.length (rentals s)
  /\ forall row, In row (rentals after) ->
       (Rental.id row = Rental.id rental
        /\ Rental.updated_at row = now
        /\ if Jama.allItemsReturned rental batch
           then Rental.status row = completed
                /\ Rental.actual_return_date row = Some (Jama.ReturnFormData.return_date form)
           else Rental.status row = partially_returned
                /\ Rental.actual_return_date row = None)
       \/ (Rental.id row <> Rental.id rental /\ In row (rentals s)).
Proof.
  intros H0 H1 H2. unfold outcome. rewrite Jama_handleSubmit_run.
  cbn [db sent]. rewrite H0, H1, H2. cbn -[Jama.allItemsReturned].
  unfold update_rows. split; [apply length_map|].
  intros row Hin. apply in_map_iff in Hin as (old & <- & Hold).
  destruct (Nat.eqb (Rental.id old) (Rental.id rental)) eqn:E.
  - left. apply Nat.eqb_eq in E. cbn -[Jama.allItemsReturned].
    repeat split; [exact E|].
    now destruct (Jama.allItemsReturned rental batch).
  - right. apply Nat.eqb_neq in E. now split.
Qed.

Lemma return_writes_status_and_date_witness :
  List.length (rentals (snd (process_return [submission 5 good 0] always)))
  = List.length (rentals sample_store).
Proof.
  exact (proj1 (return_writes_status_and_date always 7%nat selected_rental sample_form
                  [submission 5 good 0] (day 4) sample_store eq_refl eq_refl eq_refl)).
Defined.

(** X9.  Selecting a rental fills the form with one submission for each line
    item, in order, in good condition and without damage cost.  When the
    fetched line items carry no pending_quantity and no quantity is negative,
    every pre-filled quantity is zero and the submit button is disabled
    until a quantity is typed in. *)
Theorem selectRental_prefill (pending_quantity : RentalItem.t -> option Z) (today : Date)
  (rental : Rental.t) (items : list RentalItem.t) :
  Rental.rental_items rental = Some items ->
  let batch := snd (Jama.selectRental pending_quantity today rental) in
  map Jama.ReturnItemFormData.rental_item_id batch = map RentalItem.id items
  /\ Jama.calculateTotalDamageCost batch = 0
  /\ ((forall item, In item items -> pending_quantity item = None) ->
      Forall (fun item => 0 <= RentalItem.quantity item) items ->
      Jama.submitDisabled false batch = true).
Proof.
  intro Hitems. unfold Jama.selectRental. rewrite Hitems. cbn [snd].
  repeat split.
  - now rewrite map_map.
  - unfold Jama.calculateTotalDamageCost. rewrite fold_left_add_sumZ, map_map. cbn.
    unfold sumZ. induction items as [|item l IH] in |- *; cbn; [reflexivity|].
    now rewrite IH.
  - intros Hnone Hq. cbn. apply forallb_forall. intros sub Hin.
    apply in_map_iff in Hin as (item & <- & Hitem). cbn.
    rewrite (Hnone item Hitem). rewrite Forall_forall in Hq.
    specialize (Hq item Hitem). apply Z.eqb_eq. lia.
Qed.

Lemma selectRental_prefill_witness :
  Jama.submitDisabled false (snd (Jama.selectRental (fun _ => None) (day 4) selected_rental))
  = true.
Proof.
  apply (proj2 (proj2 (selectRental_prefill (fun _ => None) (day 4) selected_rental
                         [sample_item] eq_refl))).
  - reflexivity.
  - repeat constructor. discriminate.
Defined.

(** X10.  When the fetched line items do carry what is pending on them, have
    distinct keys and no negative returned quantity, the form submitted as
    it was pre-filled closes the rental. *)
Theorem prefilled_form_closes_rental (today : Date) (rental : Rental.t)
  (items : list RentalItem.t) :
  Rental.rental_items rental = Some items ->
  NoDup (map RentalItem.id items) ->
  Forall (fun item => 0 <= RentalItem.returned_quantity item) items ->
  Jama.allItemsReturned rental
    (snd (Jama.selectRental (fun item => Some (Jama.pendingQuantity item)) today rental))
  = true.
Proof.
  intros Hitems Hnd Hret.
  assert (Hbatch :
    snd (Jama.selectRental (fun item => Some (Jama.pendingQuantity item)) today rental)
    = map (fun item =>
             Jama.ReturnItemFormData.mk (RentalItem.id item)
               (Z.min (Jama.pendingQuantity item) (RentalItem.quantity item)) good 0)
        items).
  { unfold Jama.selectRental. now rewrite Hitems. }
  rewrite Hbatch. unfold Jama.allItemsReturned. rewrite Hitems.
  apply forallb_forall. intros item Hin.
  rewrite (find_unique_submission _
             (Jama.ReturnItemFormData.mk (RentalItem.id item)
                (Z.min (Jama.pendingQuantity item) (RentalItem.quantity item)) good 0)
             (RentalItem.id item)).
  - cbn. rewrite Forall_forall in Hret. specialize (Hret item Hin).
    unfold Jama.pendingQuantity. apply Z.leb_le. lia.
  - rewrite map_map. exact Hnd.
  - apply (in_map (fun item0 =>
             Jama.ReturnItemFormData.mk (RentalItem.id item0)
               (Z.min (Jama.pendingQuantity item0) (RentalItem.quantity item0)) good 0)).
    exact Hin.
  - reflexivity.
Qed.

Lemma prefilled_form_closes_rental_witness :
  Jama.allItemsReturned selected_rental
    (snd (Jama.selectRental (fun item => Some (Jama.pendingQuantity item)) (day 4)
            selected_rental))
  = true.
Proof.
  apply (prefilled_form_closes_rental (day 4) selected_rental [sample_item] eq_refl).
  - repeat constructor. intros [].
  - repeat constructor. discriminate.
Defined.

(** ** Issuance *)

(** X11.  Issuance is not atomic either.  For a request that passes the
    availability check: when the insert of the rental is refused, the
    handler ends by throwing, without a toast, and the store is as before;
    when the rental is stored and the insert of its line items is refused,
    the handler ends by throwing, without a toast, and the rental stays in
    the store with its amount, without any line item and without any
    movement of stock. *)
Theorem issuance_not_atomic (served : nat -> bool) (user_id : Id)
  (stockItems : list StockItem.t) (form : Udhar.FormData.t)
  (rentalItems : list Udhar.RentalItemForm.t) (now : Date) (s : Store) :
  rentalItems <> [] ->
  Udhar.firstShortage stockItems rentalItems = None ->
  let result := outcome (Udhar.handleSubmit (Some user_id) stockItems form rentalItems now)
                  served s in
  (served 0%nat = false -> result = (Thrown, s))
  /\ (served 0%nat = true -> served 1%nat = false ->
      fst result = Thrown
      /\ rentals (snd result)
         = rentals s
           ++ [Rental.mk (next_id s) (Udhar.FormData.client_id form)
                 (Udhar.FormData.rental_date form) (Udhar.FormData.expected_return_date form)
                 None active (Udhar.calculateTotal rentalItems) now user_id None]
      /\ rental_items (snd result) = rental_items s
      /\ stock_items (snd result) = stock_items s).
Proof.
  intros Hne Hnone. unfold outcome.
  rewrite (Udhar_handleSubmit_run served user_id stockItems form rentalItems now
             (mkWorld s 0) Hne Hnone).
  cbn [db sent]. split.
  - intros ->. cbn. now destruct s.
  - intros -> ->. cbn. now repeat split.
Qed.

Lemma issuance_not_atomic_witness :
  rental_items (snd (issue scarce_store [Udhar.RentalItemForm.mk plates 4 25] (failing_at 1)))
  = rental_items scarce_store.
Proof.
  apply (proj2 (issuance_not_atomic (failing_at 1) 7%nat (stock_items scarce_store)
                  (Udhar.FormData.mk 1%nat (day 1) None)
                  [Udhar.RentalItemForm.mk plates 4 25] (day 1) scarce_store
                  ltac:(discriminate) eq_refl)); reflexivity.
Defined.

Lemma updateStock_refused (stockItems : list StockItem.t) (now : Date)
  (rentalItems : list Udhar.RentalItemForm.t) (served : nat -> bool) (w : World) :
  (forall k, (sent w <= k)%nat -> served k = false) ->
  db (snd (Udhar.updateStock stockItems now rentalItems served w)) = db w.
Proof.
  revert w. induction rentalItems as [|item rest IH]; intros w Hrefused; cbn; [reflexivity|].
  destruct (Udhar.findStockItem stockItems (Udhar.RentalItemForm.category_id item));
    [|now apply IH].
  unfold bind, request. rewrite (Hrefused (sent w) (Nat.le_refl _)). cbn.
  rewrite IH; [reflexivity|]. cbn. intros k Hk. apply Hrefused. lia.
Qed.

(** X12.  A refused stock update goes unnoticed.  When the rental and its
    line items are stored and every request after them is refused, the
    handler still ends with the success toast, the rental and its lines are
    in the store, and no stock row has changed. *)
Theorem refused_stock_update_goes_unnoticed (served : nat -> bool) (user_id : Id)
  (stockItems : list StockItem.t) (form : Udhar.FormData.t)
  (rentalItems : list Udhar.RentalItemForm.t) (now : Date) (s : Store) :
  rentalItems <> [] ->
  Udhar.firstShortage stockItems rentalItems = None ->
  served 0%nat = true -> served 1%nat = true ->
  (forall k, (2 <= k)%nat -> served k = false) ->
  let result := outcome (Udhar.handleSubmit (Some user_id) stockItems form rentalItems now)
                  served s in
  fst result = Normal Success
  /\ List.length (rentals (snd result)) = S (List.length (rentals s))
  /\ rental_items (snd result)
     = rental_items s
       ++ assign_ids (S (next_id s)) (Udhar.rentalItemsData (next_id s) rentalItems)
  /\ stock_items (snd result) = stock_items s.
Proof.
  intros Hne Hnone H0 H1 Hrefused. unfold outcome.
  rewrite (Udhar_handleSubmit_run served user_id stockItems form rentalItems now
             (mkWorld s 0) Hne Hnone).
  cbn [db sent]. rewrite H0, H1. cbv zeta. cbn [fst snd].
  rewrite updateStock_refused by exact Hrefused. cbn.
  repeat split. rewrite length_app. cbn. lia.
Qed.

Lemma refused_stock_update_goes_unnoticed_witness :
  fst (issue scarce_store [Udhar.RentalItemForm.mk plates 4 25] (fun k => Nat.ltb k 2))
  = Normal Success
  /\ stock_items (snd (issue scarce_store [Udhar.RentalItemForm.mk plates 4 25]
                         (fun k => Nat.ltb k 2)))
     = stock_items scarce_store.
Proof.
  pose proof (refused_stock_update_goes_unnoticed (fun k => Nat.ltb k 2) 7%nat
                (stock_items scarce_store) (Udhar.FormData.mk 1%nat (day 1) None)
                [Udhar.RentalItemForm.mk plates 4 25] (day 1) scarce_store
                ltac:(discriminate) eq_refl eq_refl eq_refl) as H.
  assert (Hrefused : forall k, (2 <= k)%nat -> Nat.ltb k 2 = false).
  { intros k Hk. apply Nat.ltb_ge. exact Hk. }
  destruct (H Hrefused) as (Hshown & _ & _ & Hstock). split; assumption.
Defined.

Lemma firstShortage_None_found (stockItems : list StockItem.t)
  (rentalItems : list Udhar.RentalItemForm.t) (item : Udhar.RentalItemForm.t)
  (stockItem : StockItem.t) :
  Udhar.firstShortage stockItems rentalItems = None ->
  In item rentalItems ->
  Udhar.findStockItem stockItems (Udhar.RentalItemForm.category_id item) = Some stockItem ->
  Udhar.RentalItemForm.quantity item <= StockItem.available_quantity stockItem.
Proof.
  intros Hnone Hin Hfind. apply firstShortage_None in Hnone.
  rewrite Forall_forall in Hnone. specialize (Hnone item Hin).
  unfold Udhar.getAvailableQuantity in Hnone. now rewrite Hfind in Hnone.
Qed.

Lemma updateStock_nonnegative (stockItems : list StockItem.t) (now : Date)
  (rentalItems : list Udhar.RentalItemForm.t) (served : nat -> bool) (w : World) :
  (forall item stockItem, In item rentalItems ->
     Udhar.findStockItem stockItems (Udhar.RentalItemForm.category_id item) = Some stockItem ->
     Udhar.RentalItemForm.quantity item <= StockItem.available_quantity stockItem) ->
  Forall (fun row => 0 <= StockItem.available_quantity row) (stock_items (db w)) ->
  Forall (fun row => 0 <= StockItem.available_quantity row)
    (stock_items (db (snd (Udhar.updateStock stockItems now rentalItems served w)))).
Proof.
  revert w. induction rentalItems as [|item rest IH]; intros w Hchecked Hrows; cbn;
    [exact Hrows|].
  assert (Hrest : forall item' stockItem, In item' rest ->
            Udhar.findStockItem stockItems (Udhar.RentalItemForm.category_id item')
            = Some stockItem ->
            Udhar.RentalItemForm.quantity item' <= StockItem.available_quantity stockItem).
  { intros item' stockItem Hin. apply Hchecked. now right. }
  destruct (Udhar.findStockItem stockItems (Udhar.RentalItemForm.category_id item))
    as [stockItem|] eqn:Hfind; [|now apply IH].
  unfold bind, request. destruct (served (sent w)); cbn; [|now apply IH].
  apply IH; [exact Hrest|]. cbn. unfold update_rows.
  apply Forall_forall. intros row' Hin. apply in_map_iff in Hin as (row & <- & Hrow).
  rewrite Forall_forall in Hrows.
  destruct (Nat.eqb (StockItem.id row) (StockItem.id stockItem)); [|now apply Hrows].
  cbn. specialize (Hchecked item stockItem (or_introl eq_refl) Hfind). lia.
Qed.

(** X13.  Issuance never drives an available quantity below zero: when no
    stock row of the store has a negative available quantity, none has one
    after the handler, whatever the user, the request, the page's copy of the
    stock rows and the answers of the store. *)
Theorem issuance_keeps_available_nonnegative (served : nat -> bool) (user : option Id)
  (stockItems : list StockItem.t) (form : Udhar.FormData.t)
  (rentalItems : list Udhar.RentalItemForm.t) (now : Date) (s : Store) :
  Forall (fun row => 0 <= StockItem.available_quantity row) (stock_items s) ->
  Forall (fun row => 0 <= StockItem.available_quantity row)
    (stock_items (snd (outcome (Udhar.handleSubmit user stockItems form rentalItems now)
                         served s))).
Proof.
  intro Hrows. unfold outcome.
  destruct user as [user_id|]; [|exact Hrows].
  destruct rentalItems as [|item rest] eqn:Hitems; [exact Hrows|]. rewrite <- Hitems.
  assert (Hne : rentalItems <> []) by (rewrite Hitems; discriminate).
  destruct (Udhar.firstShortage stockItems rentalItems) as [available|] eqn:Hshort.
  - now rewrite (Udhar_handleSubmit_shortage served user_id stockItems form rentalItems now
                   (mkWorld s 0) available Hne Hshort).
  - rewrite (Udhar_handleSubmit_run served user_id stockItems form rentalItems now
               (mkWorld s 0) Hne Hshort).
    cbn [db sent]. destruct (served 0%nat); [|exact Hrows].
    destruct (served 1%nat); [|exact Hrows].
    cbv zeta. cbn [snd].
    destruct (Udhar.updateStock stockItems now rentalItems served _) as [c w'] eqn:Hrun.
    cbn [snd]. change w' with (snd (c, w')). rewrite <- Hrun.
    apply updateStock_nonnegative; [|exact Hrows].
    intros item' stockItem Hin Hfind.
    now apply (firstShortage_None_found stockItems rentalItems item' stockItem).
Qed.

Lemma issuance_keeps_available_nonnegative_witness :
  Forall (fun row => 0 <= StockItem.available_quantity row)
    (stock_items (snd (issue scarce_store
                         [Udhar.RentalItemForm.mk plates 4 25;
                          Udhar.RentalItemForm.mk plates 5 25] always))).
Proof.
  apply (issuance_keeps_available_nonnegative always (Some 7%nat) (stock_items scarce_store)
           (Udhar.FormData.mk 1%nat (day 1) None)
           [Udhar.RentalItemForm.mk plates 4 25; Udhar.RentalItemForm.mk plates 5 25]
           (day 1) scarce_store).
  repeat constructor. discriminate.
Defined.

Lemma updateStock_cons_always (stockItems : list StockItem.t) (now : Date)
  (item : Udhar.RentalItemForm.t) (rest : list Udhar.RentalItemForm.t) (w : World) :
  Udhar.updateStock stockItems now (item :: rest) always w
  = match Udhar.findStockItem stockItems (Udhar.RentalItemForm.category_id item) with
    | Some stockItem =>
        Udhar.updateStock stockItems now rest always
          (mkWorld (snd (update_stock_item (StockItem.id stockItem)
                           (Udhar.issueFrom stockItem (Udhar.RentalItemForm.quantity item) now)
                           (db w)))
             (S (sent w)))
    | None => Udhar.updateStock stockItems now rest always w
    end.
Proof.
  cbn. now destruct (Udhar.findStockItem stockItems (Udhar.RentalItemForm.category_id item)).
Qed.

Lemma findStockItem_category (rows : list StockItem.t) (category : Id) (row : StockItem.t) :
  Udhar.findStockItem rows category = Some row ->
  In row rows /\ StockItem.category_id row = category.
Proof.
  intro H. apply find_some in H as [Hin Hcat]. split; [exact Hin|now apply Nat.eqb_eq].
Qed.

(** The update for a line of another category leaves the row found for a
    category as it is, when the keys of the copy are distinct. *)
Lemma findStockItem_after_other_line (copy rows : list StockItem.t) (c c' : Id)
  (x' : StockItem.t) (quantity : Z) (now : Date) :
  NoDup (map StockItem.id copy) ->
  Udhar.findStockItem copy c' = Some x' ->
  c' <> c ->
  option_map StockItem.id (Udhar.findStockItem rows c)
  = option_map StockItem.id (Udhar.findStockItem copy c) ->
  Udhar.findStockItem
    (update_rows StockItem.id (StockItem.id x') (Udhar.issueFrom x' quantity now) rows) c
  = Udhar.findStockItem rows c.
Proof.
  intros Hnd Hx' Hneq Hslot.
  rewrite findStockItem_update_rows by reflexivity.
  destruct (Udhar.findStockItem rows c) as [y|]; [|reflexivity].
  destruct (Udhar.findStockItem copy c) as [x|] eqn:Hx; [|discriminate].
  cbn in Hslot |- *. injection Hslot as Hid.
  destruct (Nat.eqb (StockItem.id y) (StockItem.id x')) eqn:E; [|reflexivity].
  exfalso. apply Nat.eqb_eq in E.
  apply findStockItem_category in Hx as [Hxin Hxc].
  apply findStockItem_category in Hx' as [Hx'in Hx'c].
  assert (x = x') by (apply (NoDup_map_In_eq StockItem.id copy); auto; congruence).
  congruence.
Qed.

Lemma updateStock_other_categories (copy : list StockItem.t) (now : Date)
  (rentalItems : list Udhar.RentalItemForm.t) (c : Id) (w : World) :
  NoDup (map StockItem.id copy) ->
  ~ In c (map Udhar.RentalItemForm.category_id rentalItems) ->
  option_map StockItem.id (Udhar.findStockItem (stock_items (db w)) c)
  = option_map StockItem.id (Udhar.findStockItem copy c) ->
  Udhar.findStockItem
    (stock_items (db (snd (Udhar.updateStock copy now rentalItems always w)))) c
  = Udhar.findStockItem (stock_items (db w)) c.
Proof.
  intros Hnd. revert w.
  induction rentalItems as [|item rest IH]; intros w Hnotin Hslot; [reflexivity|].
  rewrite updateStock_cons_always.
  assert (Hneq : Udhar.RentalItemForm.category_id item <> c).
  { intro E. apply Hnotin. now left. }
  assert (Hrest : ~ In c (map Udhar.RentalItemForm.category_id rest)).
  { intro E. apply Hnotin. now right. }
  destruct (Udhar.findStockItem copy (Udhar.RentalItemForm.category_id item))
    as [x'|] eqn:Hx'; [|now apply IH].
  pose proof (findStockItem_after_other_line copy (stock_items (db w)) c
                (Udhar.RentalItemForm.category_id item) x'
                (Udhar.RentalItemForm.quantity item) now Hnd Hx' Hneq Hslot) as Hstep.
  rewrite IH; [exact Hstep|exact Hrest|]. cbn [db update_stock_item snd stock_items].
  now rewrite Hstep.
Qed.

Lemma updateStock_own_category (copy : list StockItem.t) (now : Date)
  (rentalItems : list Udhar.RentalItemForm.t) (item : Udhar.RentalItemForm.t)
  (x y : StockItem.t) (w : World) :
  NoDup (map StockItem.id copy) ->
  NoDup (map Udhar.RentalItemForm.category_id rentalItems) ->
  In item rentalItems ->
  Udhar.findStockItem copy (Udhar.RentalItemForm.category_id item) = Some x ->
  Udhar.findStockItem (stock_items (db w)) (Udhar.RentalItemForm.category_id item) = Some y ->
  StockItem.id y = StockItem.id x ->
  Udhar.findStockItem
    (stock_items (db (snd (Udhar.updateStock copy now rentalItems always w))))
    (Udhar.RentalItemForm.category_id item)
  = Some (Udhar.issueFrom x (Udhar.RentalItemForm.quantity item) now y).
Proof.
  intros Hnd. revert w.
  induction rentalItems as [|item0 rest IH]; intros w Hcats Hin Hx Hy Hid; [contradiction|].
  rewrite updateStock_cons_always.
  cbn in Hcats. inversion Hcats as [|k ks Hnotin Hcats']; subst.
  destruct (Nat.eq_dec (Udhar.RentalItemForm.category_id item0)
              (Udhar.RentalItemForm.category_id item)) as [E|E].
  - assert (item0 = item).
    { destruct Hin as [Hin|Hin]; [exact Hin|].
      exfalso. apply Hnotin. rewrite E. now apply in_map. }
    subst item0. rewrite Hx.
    rewrite updateStock_other_categories.
    + cbn [db update_stock_item snd stock_items].
      rewrite findStockItem_update_rows by reflexivity.
      rewrite Hy. cbn. now rewrite Hid, Nat.eqb_refl.
    + exact Hnd.
    + exact Hnotin.
    + cbn [db update_stock_item snd stock_items].
      rewrite findStockItem_update_rows by reflexivity.
      rewrite Hy, Hx. cbn. rewrite Hid, Nat.eqb_refl. cbn. now rewrite Hid.
  - assert (Hrest : In item rest) by (destruct Hin as [->|Hin]; [congruence|exact Hin]).
    destruct (Udhar.findStockItem copy (Udhar.RentalItemForm.category_id item0))
      as [x'|] eqn:Hx'; [|now apply IH].
    assert (Hstep :
      Udhar.findStockItem
        (update_rows StockItem.id (StockItem.id x')
           (Udhar.issueFrom x' (Udhar.RentalItemForm.quantity item0) now)
           (stock_items (db w)))
        (Udhar.RentalItemForm.category_id item)
      = Some y).
    { rewrite <- Hy.
      apply (findStockItem_after_other_line copy (stock_items (db w))
               (Udhar.RentalItemForm.category_id item)
               (Udhar.RentalItemForm.category_id item0) x'
               (Udhar.RentalItemForm.quantity item0) now Hnd Hx' E).
      rewrite Hy, Hx. cbn. now rewrite Hid. }
    apply IH; auto.
Qed.

(** X14.  A request whose lines name distinct categories, checked against an
    up-to-date copy of stock rows with distinct keys and served in full,
    moves the stock of every line: the row of each requested category ends
    with its available quantity decreased and its rented quantity increased
    by the quantity of its line, its damaged and total quantities as before;
    and the row of every category that is not requested is left as it was. *)
Theorem issue_distinct_categories (user_id : Id) (form : Udhar.FormData.t)
  (rentalItems : list Udhar.RentalItemForm.t) (now : Date) (s : Store) :
  rentalItems <> [] ->
  NoDup (map Udhar.RentalItemForm.category_id rentalItems) ->
  NoDup (map StockItem.id (stock_items s)) ->
  Udhar.firstShortage (stock_items s) rentalItems = None ->
  let result := outcome (Udhar.handleSubmit (Some user_id) (stock_items s) form rentalItems now)
                  always s in
  fst result = Normal Success
  /\ (forall item stockItem,
        In item rentalItems ->
        Udhar.findStockItem (stock_items s) (Udhar.RentalItemForm.category_id item)
        = Some stockItem ->
        exists row,
          Udhar.findStockItem (stock_items (snd result)) (Udhar.RentalItemForm.category_id item)
          = Some row
          /\ StockItem.available_quantity row
             = StockItem.available_quantity stockItem - Udhar.RentalItemForm.quantity item
          /\ StockItem.rented_quantity row
             = StockItem.rented_quantity stockItem + Udhar.RentalItemForm.quantity item
          /\ StockItem.damaged_quantity row = StockItem.damaged_quantity stockItem
          /\ StockItem.total_quantity row = StockItem.total_quantity stockItem)
  /\ (forall category,
        ~ In category (map Udhar.RentalItemForm.category_id rentalItems) ->
        Udhar.findStockItem (stock_items (snd result)) category
        = Udhar.findStockItem (stock_items s) category).
Proof.
  intros Hne Hcats Hkeys Hnone. unfold outcome.
  rewrite (Udhar_handleSubmit_run always user_id (stock_items s) form rentalItems now
             (mkWorld s 0) Hne Hnone).
  cbn [db sent always]. cbv zeta. cbn [fst snd].
  split; [reflexivity|]. split.
  - intros item stockItem Hin Hfind.
    exists (Udhar.issueFrom stockItem (Udhar.RentalItemForm.quantity item) now stockItem).
    split; [|now repeat split].
    now apply updateStock_own_category.
  - intros category Hnotin.
    now apply updateStock_other_categories.
Qed.

Lemma issue_distinct_categories_witness :
  fst (issue scarce_store [Udhar.RentalItemForm.mk plates 4 25] always) = Normal Success
  /\ exists row,
       Udhar.findStockItem
         (stock_items (snd (issue scarce_store [Udhar.RentalItemForm.mk plates 4 25] always)))
         plates = Some row
       /\ StockItem.available_quantity row = 6 - 4.
Proof.
  pose proof (issue_distinct_categories 7%nat (Udhar.FormData.mk 1%nat (day 1) None)
                [Udhar.RentalItemForm.mk plates 4 25] (day 1) scarce_store
                ltac:(discriminate) ltac:(repeat constructor; intros [])
                ltac:(repeat constructor; intros []) eq_refl) as (Hshown & Hmoved & _).
  split; [exact Hshown|].
  destruct (Hmoved (Udhar.RentalItemForm.mk plates 4 25)
              (StockItem.mk 20%nat plates 100 6 94 0 (day 0)) (or_introl eq_refl) eq_refl)
    as (row & Hrow & Havailable & _).
  exists row. split; [exact Hrow|exact Havailable].
Defined.

Lemma updateStock_only_stock (stockItems : list StockItem.t) (now : Date)
  (rentalItems : list Udhar.RentalItemForm.t) (served : nat -> bool) (w : World) :
  rental_items (db (snd (Udhar.updateStock stockItems now rentalItems served w)))
  = rental_items (db w).
Proof.
  revert w. induction rentalItems as [|item rest IH]; intro w; cbn; [reflexivity|].
  destruct (Udhar.findStockItem stockItems (Udhar.RentalItemForm.category_id item)); [|apply IH].
  unfold bind, request. destruct (served (sent w)); cbn; now rewrite IH.
Qed.

Lemma issued_lines (n rental_id : Id) (rentalItems : list Udhar.RentalItemForm.t) :
  Forall (fun row => RentalItem.rental_id row = rental_id
                     /\ RentalItem.returned_quantity row = 0)
    (assign_ids n (Udhar.rentalItemsData rental_id rentalItems))
  /\ map (fun row => RentalItem.quantity row * RentalItem.daily_rate row)
       (assign_ids n (Udhar.rentalItemsData rental_id rentalItems))
     = map (fun item => Udhar.RentalItemForm.quantity item * Udhar.RentalItemForm.daily_rate item)
         rentalItems.
Proof.
  unfold Udhar.rentalItemsData. revert n.
  induction rentalItems as [|item rest IH]; intro n; cbn; [split; [constructor|reflexivity]|].
  destruct (IH (S n)) as [Hall Hmap]. split.
  - constructor; [now split|exact Hall].
  - now rewrite Hmap.
Qed.

Lemma filter_none {A : Type} (p : A -> bool) (l : list A) :
  Forall (fun x => p x = false) l -> filter p l = [].
Proof.
  induction l as [|x l IH]; intro H; cbn; [reflexivity|].
  inversion H; subst. rewrite H2. now apply IH.
Qed.

Lemma filter_all {A : Type} (p : A -> bool) (l : list A) :
  Forall (fun x => p x = true) l -> filter p l = l.
Proof.
  induction l as [|x l IH]; intro H; cbn; [reflexivity|].
  inversion H; subst. rewrite H2. now rewrite IH.
Qed.

(** X15.  A rental just issued, loaded with its line items, carries exactly
    the lines of the request, nothing returned yet, and its live accrual is
    its stored amount times the number of billed days.  This needs the key
    handed to the rental to be fresh: no older line item refers to it. *)
Theorem issued_rental_accrues_from_total (differenceInDays : Date -> Date -> Z)
  (served : nat -> bool) (user_id : Id) (stockItems : list StockItem.t)
  (form : Udhar.FormData.t) (rentalItems : list Udhar.RentalItemForm.t) (now today : Date)
  (s : Store) :
  rentalItems <> [] ->
  Udhar.firstShortage stockItems rentalItems = None ->
  served 0%nat = true -> served 1%nat = true ->
  Forall (fun row => RentalItem.rental_id row <> next_id s) (rental_items s) ->
  let after := snd (outcome (Udhar.handleSubmit (Some user_id) stockItems form rentalItems now)
                      served s) in
  let stored :=
    Rental.mk (next_id s) (Udhar.FormData.client_id form) (Udhar.FormData.rental_date form)
      (Udhar.FormData.expected_return_date form) None active
      (Udhar.calculateTotal rentalItems) now user_id None in
  In stored (rentals after)
  /\ Rental.rental_items (with_rental_items after stored)
     = Some (assign_ids (S (next_id s)) (Udhar.rentalItemsData (next_id s) rentalItems))
  /\ Billing.calculateRentalAmount differenceInDays today (with_rental_items after stored)
     = Z.max 1 (differenceInDays today (Udhar.FormData.rental_date form) + 1)
       * Rental.total_amount stored.
Proof.
  intros Hne Hnone H0 H1 Hfresh after stored.
  assert (Hrentals : rentals after = rentals s ++ [stored]).
  { subst after stored. unfold outcome.
    rewrite (Udhar_handleSubmit_run served user_id stockItems form rentalItems now
               (mkWorld s 0) Hne Hnone).
    cbn [db sent]. rewrite H0, H1. cbv zeta. cbn [snd].
    now rewrite updateStock_rentals. }
  assert (Hlines : rental_items after
                   = rental_items s
                     ++ assign_ids (S (next_id s))
                          (Udhar.rentalItemsData (next_id s) rentalItems)).
  { subst after. unfold outcome.
    rewrite (Udhar_handleSubmit_run served user_id stockItems form rentalItems now
               (mkWorld s 0) Hne Hnone).
    cbn [db sent]. rewrite H0, H1. cbv zeta. cbn [snd].
    now rewrite updateStock_only_stock. }
  destruct (issued_lines (S (next_id s)) (next_id s) rentalItems) as [Hall Hcharge].
  assert (Hloaded : Rental.rental_items (with_rental_items after stored)
                    = Some (assign_ids (S (next_id s))
                              (Udhar.rentalItemsData (next_id s) rentalItems))).
  { unfold with_rental_items. cbn [Rental.rental_items Rental.id stored].
    rewrite Hlines, filter_app. f_equal.
    rewrite filter_none, filter_all; [reflexivity| |].
    - eapply Forall_impl; [|exact Hall]. cbn. intros row [-> _]. apply Nat.eqb_refl.
    - eapply Forall_impl; [|exact Hfresh]. cbn. intros row Hrow. now apply Nat.eqb_neq. }
  repeat split.
  - rewrite Hrentals. apply in_or_app. right. now left.
  - exact Hloaded.
  - rewrite (calculateRentalAmount_scale differenceInDays today _ _ Hloaded).
    rewrite Hcharge. f_equal. subst stored. cbn [Rental.total_amount].
    unfold Udhar.calculateTotal. rewrite fold_left_add_sumZ. lia.
Qed.

Lemma issued_rental_accrues_from_total_witness :
  Billing.calculateRentalAmount Billing.fullDays (day 4) issued_rental
  = Z.max 1 (Billing.fullDays (day 4) (day 0) + 1) * 125.
Proof.
  exact (proj2 (proj2 (issued_rental_accrues_from_total Billing.fullDays always 7%nat
           (stock_items opening_store) (Udhar.FormData.mk 1%nat (day 0) None)
           [Udhar.RentalItemForm.mk plates 5 25] (day 0) (day 4) opening_store
           ltac:(discriminate) eq_refl eq_refl eq_refl ltac:(constructor)))).
Defined.

Lemma filter_index_past {A : Type} (index k : nat) (l : list A) :
  (index < k)%nat -> Udhar.filter_index (fun i => negb (Nat.eqb i index)) k l = l.
Proof.
  revert k. induction l as [|x l IH]; intros k Hlt; cbn; [reflexivity|].
  destruct (Nat.eqb_spec k index); [lia|]. cbn. now rewrite IH by lia.
Qed.

Lemma sumZ_filter_index {A : Type} (f : A -> Z) (index k : nat) (l : list A) :
  (k <= index)%nat ->
  sumZ (map f (Udhar.filter_index (fun i => negb (Nat.eqb i index)) k l))
  = sumZ (map f l) - match nth_error l (index - k) with Some x => f x | None => 0 end.
Proof.
  unfold sumZ. revert k. induction l as [|x l IH]; intros k Hle; cbn.
  - destruct (index - k)%nat; reflexivity.
  - destruct (Nat.eqb_spec k index) as [->|Hneq]; cbn.
    + rewrite Nat.sub_diag. cbn. rewrite filter_index_past by lia. lia.
    + rewrite IH by lia.
      replace (index - k)%nat with (S (index - S k)) by lia. cbn. lia.
Qed.

Lemma filter_index_beyond {A : Type} (index k : nat) (l : list A) :
  (k + List.length l <= index)%nat ->
  Udhar.filter_index (fun i => negb (Nat.eqb i index)) k l = l.
Proof.
  revert k. induction l as [|x l IH]; intros k Hle; cbn in *; [reflexivity|].
  destruct (Nat.eqb_spec k index); [lia|]. cbn. now rewrite IH by lia.
Qed.

(** X16.  The total quoted on the issuance form follows its lines.  Adding a
    line raises it by one day's rate of the first category, and changes
    nothing while no category is loaded; removing the line at an index lowers
    it by the charge of that line, and changes nothing for an index past the
    end of the form. *)
Theorem quoted_total_follows_lines (stockCategories : list StockCategory.t)
  (rentalItems : list Udhar.RentalItemForm.t) (index : nat) :
  Udhar.calculateTotal (Udhar.addRentalItem stockCategories rentalItems)
  = Udhar.calculateTotal rentalItems
    + match stockCategories with
      | [] => 0
      | first :: _ => StockCategory.daily_rate first
      end
  /\ Udhar.calculateTotal (Udhar.removeRentalItem index rentalItems)
     = Udhar.calculateTotal rentalItems
       - match nth_error rentalItems index with
         | Some item => Udhar.RentalItemForm.quantity item * Udhar.RentalItemForm.daily_rate item
         | None => 0
         end
  /\ ((List.length rentalItems <= index)%nat ->
      Udhar.removeRentalItem index rentalItems = rentalItems).
Proof.
  unfold Udhar.calculateTotal, Udhar.addRentalItem, Udhar.removeRentalItem.
  repeat split.
  - destruct stockCategories as [|first rest];
      rewrite !fold_left_add_sumZ, ?map_app, ?sumZ_app; unfold sumZ;
      cbn [map fold_right Udhar.RentalItemForm.quantity Udhar.RentalItemForm.daily_rate];
      lia.
  - rewrite !fold_left_add_sumZ.
    rewrite (sumZ_filter_index
               (fun item => Udhar.RentalItemForm.quantity item
                            * Udhar.RentalItemForm.daily_rate item) index 0 rentalItems)
      by lia.
    rewrite Nat.sub_0_r. lia.
  - intro Hpast. now apply filter_index_beyond.
Qed.

Lemma quoted_total_follows_lines_witness :
  Udhar.removeRentalItem 2
    [Udhar.RentalItemForm.mk plates 4 25; Udhar.RentalItemForm.mk plates 5 25]
  = [Udhar.RentalItemForm.mk plates 4 25; Udhar.RentalItemForm.mk plates 5 25].
Proof.
  apply (proj2 (proj2 (quoted_total_follows_lines []
                         [Udhar.RentalItemForm.mk plates 4 25;
                          Udhar.RentalItemForm.mk plates 5 25] 2))).
  cbn. lia.
Defined.

(** ** Client ledgers and the dashboard *)

Lemma ledgersOf_reads_only (clientRows : list Client.t) (served : nat -> bool) (w : World) :
  exists c w',
    KhataWahi.ledgersOf clientRows served w = (c, w')
    /\ db w' = db w
    /\ (c = Thrown
        \/ c = Normal (map (fun client =>
                         KhataWahi.ledgerOf client
                           (KhataWahi.selectActiveRentals (Client.id client) (db w))
                           (KhataWahi.selectPayments (Client.id client) (db w)))
                         clientRows)).
Proof.
  revert w. induction clientRows as [|client rest IH]; intro w.
  - exists (Normal []), w. cbn. auto.
  - cbn [KhataWahi.ledgersOf]. unfold bind at 1 2 3 4, request, select, orThrow, ret, throw.
    destruct (served (sent w)); cbn [db sent fst snd]; [|eauto 6].
    destruct (served (S (sent w))); cbn [db sent fst snd]; [|eauto 6].
    unfold bind.
    destruct (IH (mkWorld (db w) (S (S (sent w))))) as (c & w' & -> & Hdb & Hkind).
    cbn [db] in Hdb, Hkind.
    destruct Hkind as [-> | ->].
    + exists Thrown, w'. auto.
    + eexists. exists w'. split; [reflexivity|]. split; [exact Hdb|]. now right.
Qed.

(** X17.  Loading the client ledgers only reads.  Whatever the store answers,
    the store is left as it was, and the page holds either the ledgers it
    held before (a request was refused) or one fresh ledger for every client
    in the order of the names: never a partial list. *)
Theorem fetchClientLedgers_reads_only (served : nat -> bool)
  (old : list KhataWahi.ClientLedger) (s : Store) :
  let result := outcome (KhataWahi.fetchClientLedgers old) served s in
  snd result = s
  /\ (fst result = Normal old
      \/ fst result
         = Normal (map (fun client =>
                     KhataWahi.ledgerOf client
                       (KhataWahi.selectActiveRentals (Client.id client) s)
                       (KhataWahi.selectPayments (Client.id client) s))
                     (order_by (fun a b => String.leb (Client.name a) (Client.name b))
                        (clients s)))).
Proof.
  cbv zeta.
  assert (H : exists c,
    outcome (KhataWahi.fetchClientLedgers old) served s = (Normal c, s)
    /\ (c = old
        \/ c = map (fun client =>
                      KhataWahi.ledgerOf client
                        (KhataWahi.selectActiveRentals (Client.id client) s)
                        (KhataWahi.selectPayments (Client.id client) s))
                 (order_by (fun a b => String.leb (Client.name a) (Client.name b))
                    (clients s)))).
  { unfold outcome, KhataWahi.fetchClientLedgers, tryCatch, bind, request, select,
      orThrow, ret, throw.
    cbn [db sent]. destruct (served 0%nat); cbn [fst snd db]; [|eauto].
    destruct (ledgersOf_reads_only
                (order_by (fun a b => String.leb (Client.name a) (Client.name b)) (clients s))
                served (mkWorld s 1)) as (c & w' & -> & Hdb & Hkind).
    cbn [db] in Hdb, Hkind. destruct Hkind as [-> | ->]; cbn [db]; rewrite Hdb; eauto. }
  destruct H as (c & -> & Hc). cbn [fst snd]. split; [reflexivity|].
  destruct Hc as [-> | ->]; auto.
Qed.

Lemma closeRental_keeps_amount (newStatus : RentalStatus) (return_date now : Date)
  (r : Rental.t) :
  Rental.total_amount (Jama.closeRental newStatus return_date now r) = Rental.total_amount r
  /\ Rental.client_id (Jama.closeRental newStatus return_date now r) = Rental.client_id r
  /\ Rental.status (Jama.closeRental newStatus return_date now r) = newStatus.
Proof. now repeat split. Qed.

(** The outstanding total over the rentals of a store, for one client. *)
Lemma totalOutstanding_eq (client : Client.t) (s : Store) :
  KhataWahi.totalOutstanding
    (KhataWahi.ledgerOf client
       (KhataWahi.selectActiveRentals (Client.id client) s)
       (KhataWahi.selectPayments (Client.id client) s))
  = sumZ (map Rental.total_amount
            (filter (fun r =>
                       Nat.eqb (Rental.client_id r) (Client.id client)
                       && (RentalStatus_eqb (Rental.status r) active
                           || RentalStatus_eqb (Rental.status r) partially_returned))
               (rentals s))).
Proof. exact (proj1 (ledger_totals client s)). Qed.

Lemma sumZ_filter_update {R : Type} (f : R -> Z) (p q : R -> bool) (g : R -> R) (l : list R) :
  (forall r, In r l -> f (g r) = f r /\ p (g r) = q r) ->
  sumZ (map f (filter p (map g l))) = sumZ (map f (filter q l)).
Proof.
  unfold sumZ. induction l as [|r l IH]; intro H; cbn; [reflexivity|].
  destruct (H r (or_introl eq_refl)) as [Hf Hp]. rewrite Hp.
  assert (IH' : fold_right Z.add 0 (map f (filter p (map g l)))
                = fold_right Z.add 0 (map f (filter q l))).
  { apply IH. intros r' Hr'. apply H. now right. }
  destruct (q r); cbn; rewrite IH'; [now rewrite Hf|reflexivity].
Qed.

(** X18.  What a return does to the ledger of a client, when its three
    requests are served.  A return that closes the rental takes the rental
    out of the outstanding total: the total is then the sum over the open
    rentals of the client other than this one.  A return that leaves a
    rental open, the rental being open in the store before, leaves the
    outstanding total as it was.  Neither changes the paid total. *)
Theorem return_and_outstanding_total (served : nat -> bool) (user_id : Id)
  (rental : Rental.t) (form : Jama.ReturnFormData.t)
  (batch : list Jama.ReturnItemFormData.t) (now : Date) (client : Client.t) (s : Store) :
  served 0%nat = true -> served 1%nat = true -> served 2%nat = true ->
  let after := snd (outcome (Jama.handleSubmit (Some user_id) (Some rental) form batch now)
                      served s) in
  let ledger := fun store =>
    KhataWahi.ledgerOf client
      (KhataWahi.selectActiveRentals (Client.id client) store)
      (KhataWahi.selectPayments (Client.id client) store) in
  KhataWahi.totalPaid (ledger after) = KhataWahi.totalPaid (ledger s)
  /\ (Jama.allItemsReturned rental batch = true ->
      KhataWahi.totalOutstanding (ledger after)
      = sumZ (map Rental.total_amount
                (filter (fun r =>
                           Nat.eqb (Rental.client_id r) (Client.id client)
                           && (RentalStatus_eqb (Rental.status r) active
                               || RentalStatus_eqb (Rental.status r) partially_returned)
                           && negb (Nat.eqb (Rental.id r) (Rental.id rental)))
                   (rentals s))))
  /\ (Jama.allItemsReturned rental batch = false ->
      (forall r, In r (rentals s) -> Rental.id r = Rental.id rental ->
                 Rental.status r = active \/ Rental.status r = partially_returned) ->
      KhataWahi.totalOutstanding (ledger after) = KhataWahi.totalOutstanding (ledger s)).
Proof.
  intros H0 H1 H2 after ledger.
  assert (Hrentals :
    rentals after
    = map (fun r => if Nat.eqb (Rental.id r) (Rental.id rental)
                    then Jama.closeRental
                           (if Jama.allItemsReturned rental batch
                            then completed else partially_returned)
                           (Jama.ReturnFormData.return_date form) now r
                    else r) (rentals s)).
  { subst after. unfold outcome. rewrite Jama_handleSubmit_run.
    cbn [db sent]. now rewrite H0, H1, H2. }
  assert (Hpayments : payments after = payments s).
  { subst after. unfold outcome. rewrite Jama_handleSubmit_run.
    cbn [db sent]. now rewrite H0, H1, H2. }
  subst ledger. cbv beta. rewrite !totalOutstanding_eq, Hrentals.
  split; [|split].
  - unfold KhataWahi.ledgerOf, KhataWahi.selectPayments, KhataWahi.paymentsOf.
    cbn [KhataWahi.totalPaid]. now rewrite Hpayments.
  - intros Hall. rewrite Hall. apply sumZ_filter_update.
    intros r _. destruct (Nat.eqb (Rental.id r) (Rental.id rental)); cbn.
    + split; [reflexivity|]. now rewrite !andb_false_r.
    + split; [reflexivity|]. now rewrite andb_true_r.
  - intros Hall Hopen. rewrite Hall. apply sumZ_filter_update.
    intros r Hin. destruct (Nat.eqb (Rental.id r) (Rental.id rental)) eqn:E; cbn.
    + split; [reflexivity|]. apply Nat.eqb_eq in E.
      destruct (Hopen r Hin E) as [-> | ->]; reflexivity.
    + now split.
Qed.

Lemma return_and_outstanding_total_witness :
  let ledger := fun store =>
    KhataWahi.ledgerOf (Client.mk 1%nat "Asha")
      (KhataWahi.selectActiveRentals 1%nat store) (KhataWahi.selectPayments 1%nat store) in
  KhataWahi.totalOutstanding (ledger (snd (process_return [submission 2 good 0] always)))
  = KhataWahi.totalOutstanding (ledger sample_store).
Proof.
  apply (proj2 (proj2 (return_and_outstanding_total always 7%nat selected_rental sample_form
                         [submission 2 good 0] (day 4) (Client.mk 1%nat "Asha") sample_store
                         eq_refl eq_refl eq_refl))).
  - reflexivity.
  - intros r [<-|[]] _. now left.
Defined.

Lemma length_filter_andb {A : Type} (p q : A -> bool) (l : list A) :
  (List.length (filter (fun x => p x && q x) l) <= List.length (filter p l))%nat.
Proof.
  induction l as [|x l IH]; cbn; [lia|].
  destruct (p x), (q x); cbn; lia.
Qed.

(** X19.  The dashboard only reads, and shows zero for a figure whose request
    was refused.  The pending returns are always the active rentals.  When the
    count of the active rentals was served, the overdue rentals shown never
    exceed the active rentals; when the stock and payment requests were
    served, the available stock and the revenue are the sums over all stock
    rows and over all payments. *)
Theorem dashboard_figures (served : nat -> bool) (today : Date) (s : Store) :
  exists stats,
    outcome (Dashboard.fetchDashboardStats today) served s = (Normal stats, s)
    /\ Dashboard.pendingReturns stats = Dashboard.activeRentals stats
    /\ 0 <= Dashboard.overdueRentals stats
    /\ (served 0%nat = true ->
        Dashboard.overdueRentals stats <= Dashboard.activeRentals stats)
    /\ (served 2%nat = true ->
        Dashboard.availableStock stats
        = sumZ (map StockItem.available_quantity (stock_items s)))
    /\ (served 3%nat = true ->
        Dashboard.totalRevenue stats = sumZ (map Payment.amount (payments s)))
    /\ (served 0%nat = false -> Dashboard.activeRentals stats = 0).
Proof.
  pose proof (length_filter_andb Dashboard.isOpen
                (fun r => match Rental.expected_return_date r with
                          | Some d => d <? today
                          | None => false
                          end) (rentals s)) as Hsubset.
  pose proof (fold_left_add_sumZ (fun x => x) (map StockItem.available_quantity (stock_items s))
                0) as Hstock.
  pose proof (fold_left_add_sumZ (fun x => x) (map Payment.amount (payments s)) 0) as Hpaid.
  rewrite map_id in Hstock, Hpaid.
  unfold outcome, Dashboard.fetchDashboardStats, bind, request, select, ret.
  cbn [db sent].
  repeat (match goal with
          | |- context [if served ?n then _ else _] => destruct (served n)
          end; cbn [db sent]);
    (eexists; split; [reflexivity|]);
    cbn [Dashboard.pendingReturns Dashboard.activeRentals Dashboard.overdueRentals
         Dashboard.availableStock Dashboard.totalRevenue Dashboard.countOrZero
         Dashboard.sumOrZero];
    repeat split; try reflexivity; try discriminate;
    try apply Nat2Z.is_nonneg; try (intros _; apply Nat2Z.is_nonneg);
    try (intros _; apply inj_le; exact Hsubset);
    try (intros _; rewrite ?Hstock, ?Hpaid; apply Z.add_0_l).
Qed.

Lemma dashboard_figures_witness :
  exists stats,
    outcome (Dashboard.fetchDashboardStats (day 9)) always paid_store = (Normal stats, paid_store)
    /\ Dashboard.totalRevenue stats = 1100.
Proof.
  destruct (dashboard_figures always (day 9) paid_store)
    as (stats & Hrun & _ & _ & _ & _ & Hrevenue & _).
  exists stats. split; [exact Hrun|]. now rewrite (Hrevenue eq_refl).
Defined.

(** ** Stock management *)

(** X20.  A stock row entered through the form starts with nothing rented
    and nothing damaged.  When the insert is served, the rows that were there
    are untouched, and the stock rows are all balanced afterwards exactly
    when they were before and the form gave the same total and available
    quantity. *)
Theorem new_stock_row_balance (served : nat -> bool) (user_id : Id)
  (form : Stock.StockFormData.t) (now : Date) (s : Store) :
  served 0%nat = true ->
  let result := outcome (Stock.handleStockSubmit (Some user_id) None form now) served s in
  fst result = Normal Success
  /\ (exists row,
        stock_items (snd result) = stock_items s ++ [row]
        /\ StockItem.rented_quantity row = 0
        /\ StockItem.damaged_quantity row = 0
        /\ StockItem.total_quantity row = Stock.StockFormData.total_quantity form
        /\ StockItem.available_quantity row = Stock.StockFormData.available_quantity form)
  /\ (Forall balanced (stock_items (snd result))
      <-> Forall balanced (stock_items s)
          /\ Stock.StockFormData.available_quantity form
             = Stock.StockFormData.total_quantity form).
Proof.
  intro H0. unfold outcome, Stock.handleStockSubmit, tryCatch, bind, request, orThrow,
    ret, throw.
  cbn [db sent]. rewrite H0. cbn.
  split; [reflexivity|]. split.
  - eexists. split; [reflexivity|]. now repeat split.
  - rewrite Forall_app. split.
    + intros [Hold Hnew]. split; [exact Hold|].
      inversion Hnew as [|row rows Hrow _]; subst. unfold balanced in Hrow. cbn in Hrow. lia.
    + intros [Hold Heq]. split; [exact Hold|].
      constructor; [|constructor]. unfold balanced. cbn. lia.
Qed.

Lemma new_stock_row_balance_witness :
  fst (outcome (Stock.handleStockSubmit (Some 7%nat) None
                  (Stock.StockFormData.mk 11%nat 50 50) (day 1)) always sample_store)
  = Normal Success.
Proof.
  exact (proj1 (new_stock_row_balance always 7%nat (Stock.StockFormData.mk 11%nat 50 50)
                  (day 1) sample_store eq_refl)).
Defined.

(** X21.  Editing a stock row writes the total and available quantities of
    the form and leaves the rented and damaged quantities of the row.  When
    the update is served and the rows were balanced, they are all balanced
    afterwards exactly when, for every row with the key of the edited one,
    the total of the form is its available quantity plus what the row has
    rented and damaged. *)
Theorem edited_stock_row_balance (served : nat -> bool) (user_id : Id) (stock : StockItem.t)
  (form : Stock.StockFormData.t) (now : Date) (s : Store) :
  served 0%nat = true ->
  Forall balanced (stock_items s) ->
  let result := outcome (Stock.handleStockSubmit (Some user_id) (Some stock) form now)
                  served s in
  fst result = Normal Success
  /\ (Forall balanced (stock_items (snd result))
      <-> forall row, In row (stock_items s) -> StockItem.id row = StockItem.id stock ->
            Stock.StockFormData.available_quantity form + StockItem.rented_quantity row
            + StockItem.damaged_quantity row
            = Stock.StockFormData.total_quantity form).
Proof.
  intros H0 Hbal. unfold outcome, Stock.handleStockSubmit, tryCatch, bind, request, orThrow,
    ret, throw.
  cbn [db sent]. rewrite H0. cbn -[update_rows].
  split; [reflexivity|]. unfold update_rows. rewrite !Forall_forall. split.
  - intros Hafter row Hin Hid.
    specialize (Hafter _ (in_map _ _ _ Hin)). cbn in Hafter.
    apply Nat.eqb_eq in Hid. rewrite Hid in Hafter. exact Hafter.
  - intros Hrows row' Hin. apply in_map_iff in Hin as (row & <- & Hin).
    destruct (Nat.eqb (StockItem.id row) (StockItem.id stock)) eqn:E.
    + apply Nat.eqb_eq in E. unfold balanced. cbn. now apply Hrows.
    + rewrite Forall_forall in Hbal. now apply Hbal.
Qed.

Lemma edited_stock_row_balance_witness :
  fst (outcome (Stock.handleStockSubmit (Some 7%nat)
                  (Some (StockItem.mk 20%nat plates 100 95 5 0 (day 0)))
                  (Stock.StockFormData.mk plates 120 115) (day 1)) always sample_store)
  = Normal Success.
Proof.
  apply (proj1 (edited_stock_row_balance always 7%nat
                  (StockItem.mk 20%nat plates 100 95 5 0 (day 0))
                  (Stock.StockFormData.mk plates 120 115) (day 1) sample_store eq_refl
                  ltac:(repeat constructor))).
Defined.

(** X22.  Opening the form on a stock row and saving it as it is changes no
    quantity: when the row is the one in the store, the keys of the stock
    rows are distinct and the update is served, every stock row keeps its
    key, category and four quantities; only the time of the update of the
    edited row is new. *)
Theorem stock_form_round_trip (served : nat -> bool) (user_id : Id) (stock : StockItem.t)
  (now : Date) (s : Store) :
  served 0%nat = true ->
  In stock (stock_items s) ->
  NoDup (map StockItem.id (stock_items s)) ->
  let (editingStock, form) := Stock.openStockModal stock in
  let result := outcome (Stock.handleStockSubmit (Some user_id) editingStock form now)
                  served s in
  fst result = Normal Success
  /\ stock_items (snd result)
     = map (fun row =>
              if Nat.eqb (StockItem.id row) (StockItem.id stock)
              then StockItem.mk (StockItem.id row) (StockItem.category_id row)
                     (StockItem.total_quantity row) (StockItem.available_quantity row)
                     (StockItem.rented_quantity row) (StockItem.damaged_quantity row) now
              else row)
         (stock_items s).
Proof.
  intros H0 Hin Hnd. unfold Stock.openStockModal, outcome, Stock.handleStockSubmit, tryCatch,
    bind, request, orThrow, ret, throw.
  cbn [db sent]. rewrite H0. cbn -[update_rows].
  split; [reflexivity|]. unfold update_rows. apply map_ext_in.
  intros row Hrow. destruct (Nat.eqb (StockItem.id row) (StockItem.id stock)) eqn:E;
    [|reflexivity].
  apply Nat.eqb_eq in E.
  assert (row = stock) by (apply (NoDup_map_In_eq StockItem.id (stock_items s)); auto).
  now subst row.
Qed.

Lemma stock_form_round_trip_witness :
  let (editingStock, form) :=
    Stock.openStockModal (StockItem.mk 20%nat plates 100 95 5 0 (day 0)) in
  fst (outcome (Stock.handleStockSubmit (Some 7%nat) editingStock form (day 1))
         always sample_store)
  = Normal Success.
Proof.
  apply (stock_form_round_trip always 7%nat (StockItem.mk 20%nat plates 100 95 5 0 (day 0))
           (day 1) sample_store eq_refl (or_introl eq_refl)).
  repeat constructor. intros [].
Defined.

(** * The form around the return handler *)


(** A form whose fields are within their bounds, with the button enabled, is
    handed to the handler as it is. *)
Lemma valid_return_is_submitted (served : nat -> bool) (user : option Id)
  (selectedRental : Rental.t) (form : Jama.ReturnFormData.t)
  (returnItems : list Jama.ReturnItemFormData.t) (now : Date) (w : World) :
  Jama.submitDisabled false returnItems = false ->
  Jama.formValid selectedRental returnItems = true ->
  Jama.submitForm user selectedRental false form returnItems now served w
  = (Jama.Submitted
       (fst (Jama.handleSubmit user (Some selectedRental) form returnItems now served w)),
     snd (Jama.handleSubmit user (Some selectedRental) form returnItems now served w)).
Proof.
  intros Henabled Hvalid. unfold Jama.submitForm. rewrite Henabled, Hvalid.
  now destruct (Jama.handleSubmit user (Some selectedRental) form returnItems now served w).
Qed.



(** * Issuance from the page's copy of the stock rows *)

(** C6, counterexample.  Six plates are available and four are issued; the
    store refuses the reload that follows, so the store has two plates
    available and the page still shows six.  A request for five plates, more
    than the two that are available, is not refused: it ends with the success
    toast, and the stock row goes from 2 available and 98 rented to 1 and 99,
    the numbers computed from the page's copy. *)
Lemma stale_copy_is_not_refused :
  Udhar.getAvailableQuantity (stock_items (db (Session.world after_refused_reload))) plates = 2
  /\ Udhar.getAvailableQuantity (Session.stockItems after_refused_reload) plates = 6
  /\ fst issue_on_stale_copy = Normal Success
  /\ map (fun row => (StockItem.available_quantity row, StockItem.rented_quantity row))
       (stock_items (db (Session.world after_refused_reload))) = [(2, 98)]
  /\ map (fun row => (StockItem.available_quantity row, StockItem.rented_quantity row))
       (stock_items (db (snd issue_on_stale_copy))) = [(1, 99)].
Proof. repeat split; reflexivity. Qed.

Lemma Forall2_map_right {A : Type} (P : A -> A -> Prop) (f : A -> A) (l : list A) :
  (forall x, P x (f x)) -> Forall2 P l (map f l).
Proof. intro H. induction l as [|x l IH]; cbn; constructor; auto. Qed.

(** C6, as amended.  A request for [qty] plates of one category is checked
    against the page's copy of the stock rows, not against the store.  When
    [qty] exceeds the available quantity that the copy shows for the
    category, the handler ends with the insufficient-stock toast and the
    store is unchanged, whatever the store would have answered.  Otherwise,
    when the store serves the three requests, the handler ends with the
    success toast and every stored row with the key of the copy's row gets
    the copy's available quantity less [qty] and the copy's rented quantity
    plus [qty], its damaged and total quantities staying as they were, and
    the other rows are untouched.  So with a copy that is up to date the
    available quantity of the category decreases and its rented quantity
    increases by [qty]. *)
Theorem issue_checks_copy_and_moves_stock (served : nat -> bool) (user_id : Id)
  (stockItems : list StockItem.t) (form : Udhar.FormData.t) (category : Id) (qty : Z)
  (rate : Money) (now : Date) (s : Store) :
  let available := Udhar.getAvailableQuantity stockItems category in
  let result :=
    outcome (Udhar.handleSubmit (Some user_id) stockItems form
               [Udhar.RentalItemForm.mk category qty rate] now) served s in
  (available < qty -> result = (Normal (InsufficientStock available), s))
  /\ (qty <= available ->
      served 0%nat = true -> served 1%nat = true -> served 2%nat = true ->
      forall stockItem,
        Udhar.findStockItem stockItems category = Some stockItem ->
        fst result = Normal Success
        /\ Forall2
             (fun row row' =>
                if Nat.eqb (StockItem.id row) (StockItem.id stockItem)
                then StockItem.id row' = StockItem.id row
                     /\ StockItem.category_id row' = StockItem.category_id row
                     /\ StockItem.available_quantity row'
                        = StockItem.available_quantity stockItem - qty
                     /\ StockItem.rented_quantity row'
                        = StockItem.rented_quantity stockItem + qty
                     /\ StockItem.damaged_quantity row' = StockItem.damaged_quantity row
                     /\ StockItem.total_quantity row' = StockItem.total_quantity row
                else row' = row)
             (stock_items s) (stock_items (snd result))
        /\ (stockItems = stock_items s ->
            exists row,
              Udhar.findStockItem (stock_items (snd result)) category = Some row
              /\ StockItem.available_quantity row
                 = Udhar.getAvailableQuantity (stock_items s) category - qty
              /\ StockItem.rented_quantity row = StockItem.rented_quantity stockItem + qty
              /\ StockItem.damaged_quantity row = StockItem.damaged_quantity stockItem
              /\ StockItem.total_quantity row = StockItem.total_quantity stockItem)).
Proof.
  intros available result. subst result. unfold outcome. split.
  - intro Hlt.
    rewrite (Udhar_handleSubmit_shortage served user_id stockItems form
               [Udhar.RentalItemForm.mk category qty rate] now (mkWorld s 0) available).
    + reflexivity.
    + discriminate.
    + cbn. fold available. apply Z.ltb_lt in Hlt. now rewrite Hlt.
  - intros Hle H0 H1 H2 stockItem Hfind.
    rewrite Udhar_handleSubmit_run.
    + cbn -[Udhar.findStockItem update_rows]. rewrite H0, H1.
      cbn -[Udhar.findStockItem update_rows].
      rewrite Hfind. unfold bind, request. cbn -[Udhar.findStockItem update_rows].
      rewrite H2. cbn -[Udhar.findStockItem update_rows].
      split; [reflexivity|]. split.
      * unfold update_rows. apply Forall2_map_right. intro row.
        destruct (Nat.eqb (StockItem.id row) (StockItem.id stockItem)); [|reflexivity].
        cbn. now repeat split.
      * intros ->. exists (Udhar.issueFrom stockItem qty now stockItem).
        split; [|unfold Udhar.getAvailableQuantity; rewrite Hfind; now repeat split].
        rewrite findStockItem_update_rows by reflexivity.
        rewrite Hfind. cbn. now rewrite Nat.eqb_refl.
    + discriminate.
    + cbn. fold available. apply Z.ltb_ge in Hle. now rewrite Hle.
Qed.

(** On the page that still shows six plates over a store that has two: a
    request for ten is refused and the store is unchanged; a request for five
    is granted. *)
Lemma issue_checks_copy_and_moves_stock_witness :
  outcome (Udhar.handleSubmit (Some 7%nat) (Session.stockItems after_refused_reload)
             (Udhar.FormData.mk 1%nat (day 2) None) [Udhar.RentalItemForm.mk plates 10 25]
             (day 2))
    always (db (Session.world after_refused_reload))
  = (Normal (InsufficientStock 6), db (Session.world after_refused_reload))
  /\ fst (outcome (Udhar.handleSubmit (Some 7%nat) (Session.stockItems after_refused_reload)
                     (Udhar.FormData.mk 1%nat (day 2) None)
                     [Udhar.RentalItemForm.mk plates 5 25] (day 2))
            always (db (Session.world after_refused_reload)))
     = Normal Success.
Proof.
  split.
  - apply (proj1 (issue_checks_copy_and_moves_stock always 7%nat
      (Session.stockItems after_refused_reload) (Udhar.FormData.mk 1%nat (day 2) None)
      plates 10 25 (day 2) (db (Session.world after_refused_reload)))).
    reflexivity.
  - apply (proj2 (issue_checks_copy_and_moves_stock always 7%nat
      (Session.stockItems after_refused_reload) (Udhar.FormData.mk 1%nat (day 2) None)
      plates 5 25 (day 2) (db (Session.world after_refused_reload))))
      with (stockItem := StockItem.mk 20%nat plates 100 6 94 0 (day 0));
      try reflexivity.
    cbn. lia.
Defined.
